(** * Asset API views (apps/assets/api/asset.py)

    A shallow embedding of the five REST views of the assets application and
    of the part of the ORM and of the REST framework they rely on:
    query-parameter filtering in [AssetViewSet.get_queryset], the two action
    endpoints [AssetRefreshHardwareApi.retrieve] and
    [AssetAdminUserTestApi.retrieve], and the permission classes every view
    declares. *)

From Stdlib Require Import String.
From stdpp Require Import base option list strings gmap fin_maps.

Local Open Scope string_scope.
Local Open Scope list_scope.

(** ** Values, exceptions, responses *)

(** Primary keys travel as the text found in the URL or the query string.
    How a model turns that text into its key type is the models' concern
    ([..models] is not part of this file set): a key here is its text. *)
Abbreviation Id := string (only parsing).

(** JSON-like payloads: what a [Response] carries. A Python dict keeps its
    insertion order, so it is an association list. *)
#[warnings="-register-all"]
Inductive data : Type :=
| DStr (s : string)
| DList (items : list data)
| DDict (entries : list (string * data)).

Abbreviation Dict := (list (string * data)) (only parsing).

(** [d.values()] *)
Definition values (d : Dict) : list data := d.*2.

(** The exceptions the views and the framework raise. *)
Inductive Exception : Type :=
| Http404
| PermissionDenied.

Inductive result (A : Type) : Type :=
| Ok (a : A)
| Raise (e : Exception).
Arguments Ok {A} a.
Arguments Raise {A} e.

#[global] Instance result_ret : MRet result := λ A a, Ok a.
#[global] Instance result_bind : MBind result := λ A B f m,
  match m with
  | Ok a => f a
  | Raise e => Raise e
  end.

Definition is_Ok {A} (r : result A) : Prop := ∃ a, r = Ok a.

(** [rest_framework.response.Response(data, status=None)]; a response built
    without a status is sent with 200. *)
Record Response : Type := { resp_data : data; status_code : nat }.

Definition mkResponse (d : data) (status : option nat) : Response :=
  {| resp_data := d; status_code := default 200 status |}.

(** The status the framework answers with when a view raises. *)
Definition exception_status (e : Exception) : nat :=
  match e with
  | Http404 => 404
  | PermissionDenied => 403
  end.

(** ** Python truthiness of an optional string *)

(** [query_params.get(k)] is [None] or a string; [if x:] holds for a
    non-empty string only. *)
Definition truthy (x : option string) : bool :=
  match x with
  | Some s => negb (String.eqb s "")
  | None => false
  end.

(** The string inside a value already tested with [truthy]. *)
Definition str (x : option string) : string := default "" x.

(** ** Models (the columns and related managers the views read) *)

Record Asset : Type := {
  asset_cluster : option Id;   (* cluster foreign key, [cluster__id] *)
  asset_groups : list Id;      (* rows of the groups relation, [groups__id] *)
  asset_nodes : list Id        (* rows of the nodes relation, joined to Node *)
}.

(** Related managers are kept as the primary keys of the rows their [all()]
    returns: the views read nothing but [.id] from them. *)
Record AdminUser : Type := {
  asset_set : list Id;
  cluster_set : list Id
}.

Record SystemUser : Type := {
  get_clusters : list Id
}.

Record Node : Type := {
  node_key : string
}.

#[global] Instance Asset_eq_dec : EqDecision Asset.
Proof. solve_decision. Defined.

(** A table maps each primary key to its row, so a key names at most one
    row. *)
Record Database : Type := {
  Asset_objects : gmap Id Asset;
  AdminUser_objects : gmap Id AdminUser;
  SystemUser_objects : gmap Id SystemUser;
  Node_objects : gmap Id Node
}.

(** A model instance is a primary key with its row; a queryset evaluates to
    a list of instances, and a join over a many-valued relation can list one
    instance several times. *)
Abbreviation Instance A := (Id * A)%type (only parsing).
Abbreviation QuerySet := (list (Instance Asset)) (only parsing).

Definition pk {A} (x : Instance A) : Id := x.1.

(** [Model.objects.all()] *)
Definition objects_all {A} (table : gmap Id A) : list (Instance A) :=
  map_to_list table.

(** [django.shortcuts.get_object_or_404(Model, id=v)]; [v] is [None] when
    the caller read it from a dict that lacks the key. *)
Definition get_object_or_404 {A} (table : gmap Id A) (v : option Id)
  : result (Instance A) :=
  match v with
  | Some i =>
      match table !! i with
      | Some row => Ok (i, row)
      | None => Raise Http404
      end
  | None => Raise Http404
  end.

(** ** Queryset filters (one definition per lookup used by the views) *)

Module QS.

(** The cluster column holds one of [clusters]; a NULL column matches
    nothing. *)
Definition cluster_among (clusters : list Id) (a : Instance Asset) : Prop :=
  match asset_cluster a.2 with
  | Some c => c ∈ clusters
  | None => False
  end.

#[global] Instance cluster_among_dec clusters a : Decision (cluster_among clusters a).
Proof. unfold cluster_among. destruct (asset_cluster a.2); apply _. Defined.

(** [.filter(cluster__id=v)] *)
Definition cluster__id (v : Id) (qs : QuerySet) : QuerySet :=
  filter (λ a, asset_cluster a.2 = Some v) qs.

(** [.filter(groups__id=v)]: inner join with the groups relation, one
    result row per matching relation row. *)
Definition groups__id (v : Id) (qs : QuerySet) : QuerySet :=
  a ← qs; _ ← filter (λ g, g = v) (asset_groups a.2); [a].

(** [.filter(Q(cluster__id__in=clusters) | Q(id__in=ids))] *)
Definition cluster__id__in_or_id__in (clusters ids : list Id) (qs : QuerySet)
  : QuerySet :=
  filter (λ a, cluster_among clusters a ∨ pk a ∈ ids) qs.

(** [.filter(cluster__in=clusters)] *)
Definition cluster__in (clusters : list Id) (qs : QuerySet) : QuerySet :=
  filter (cluster_among clusters) qs.

(** The Node rows an asset is joined to through its nodes relation. *)
Definition joined_nodes (db : Database) (a : Instance Asset) : list Node :=
  nid ← asset_nodes a.2; option_list (Node_objects db !! nid).

(** [.filter(nodes__key__startswith=k)]: inner join with Node through the
    nodes relation, one result row per joined node whose key starts with
    [k]. *)
Definition nodes__key__startswith (db : Database) (k : string) (qs : QuerySet)
  : QuerySet :=
  a ← qs; _ ← filter (λ n, String.prefix k (node_key n) = true) (joined_nodes db a); [a].

(** [.filter(id__in=ids)] *)
Definition id__in (ids : list Id) (qs : QuerySet) : QuerySet :=
  filter (λ a, pk a ∈ ids) qs.

(** A queryset with every row [a] listed [m a] times in place of once:
    the shape of every filter above. *)
Definition expand (m : Instance Asset → nat) (qs : QuerySet) : QuerySet :=
  a ← qs; replicate (m a) a.

End QS.

(** ** Requests *)

Record User : Type := {
  is_valid : bool;
  is_superuser : bool;
  is_app : bool
}.

(** [query_params.get(k)] is the lookup [query_params request !! k]. *)
Record Request : Type := {
  user : User;
  query_params : gmap string string
}.

(** ** Permission classes *)

(** The permission classes come from [..hands], which is not part of this
    file set; each definition below is the [has_permission(request, view)]
    of one of them. *)

(** Modelled from the spec: [IsSuperUser] of [..hands], which demands a
    superuser. *)
Definition IsSuperUser (request : Request) : bool :=
  is_superuser (user request).

(** Modelled from the spec: [IsSuperUserOrAppUser] of [..hands], which
    demands a superuser or an app user. *)
Definition IsSuperUserOrAppUser (request : Request) : bool :=
  is_superuser (user request) || is_app (user request).

(** Modelled from the spec: [IsValidUser] of [..hands], which demands a
    valid user and nothing more. *)
Definition IsValidUser (request : Request) : bool :=
  is_valid (user request).

(** ** The world behind the views *)

Inductive Task : Type :=
| UpdateAssetHardwareInfo
| TestAssetConnectability.

(** What a handler leaves behind besides its answer. *)
Inductive Event : Type :=
| TaskRun (t : Task) (asset : Instance Asset)
| LogDebug (summary : gmap string Dict).

(** What the module imports and does not define: the tables, the two
    background operations of [..tasks], the grant computation of [..hands]
    and the bulk handlers of [rest_framework_bulk]. An operation reads the
    world and leaves a new one. *)
Class Externals (W : Type) : Type := {
  database : W → Database;
  get_user_granted_assets : W → User → list (Instance Asset);
  update_asset_hardware_info_manual :
    Instance Asset → W → (data * gmap string Dict) * W;
  test_asset_connectability_manual :
    Instance Asset → W → (bool * data) * W;
  bulk_update : Request → W → Response * W
}.

Record State (W : Type) : Type := { world : W; log : list Event }.
Arguments world {W} _.
Arguments log {W} _.

(** A handler: runs on a state, answers or raises, and leaves a state. *)
Definition Handler (W A : Type) : Type := State W → result A * State W.

#[global] Instance handler_ret {W} : MRet (Handler W) := λ A a s, (Ok a, s).
#[global] Instance handler_bind {W} : MBind (Handler W) := λ A B f m s,
  match m s with
  | (Ok a, s') => f a s'
  | (Raise e, s') => (Raise e, s')
  end.

Section Operations.
Context {W : Type} `{!Externals W}.

Definition raise {A} (e : Exception) : Handler W A := λ s, (Raise e, s).

Definition lift {A} (r : result A) : Handler W A := λ s, (r, s).

Definition tables : Handler W Database := λ s, (Ok (database (world s)), s).

(** Call a background operation: it runs once on the current world. *)
Definition call {A} (t : Task) (op : Instance Asset → W → A * W)
    (asset : Instance Asset) : Handler W A := λ s,
  let '(r, w) := op asset (world s) in
  (Ok r, {| world := w; log := log s ++ [TaskRun t asset] |}).

Definition logger_debug (summary : gmap string Dict) : Handler W () := λ s,
  (Ok (), {| world := world s; log := log s ++ [LogDebug summary] |}).

End Operations.

(** Truthiness of [summary.get(k)]: the key is there and its dict is not
    empty. *)
Definition truthy_dict (x : option Dict) : bool :=
  match x with
  | Some (_ :: _) => true
  | _ => false
  end.

(** ** The framework's dispatch *)

(** What a view hands to the renderer: the rows of a list view, or a
    response built by the handler. *)
Inductive Outcome : Type :=
| Listed (queryset : QuerySet)
| Responded (response : Response).

Record View (W : Type) : Type := {
  permission_classes : list (Request → bool);
  handler : Request → gmap string string → Handler W Outcome
}.
Arguments permission_classes {W} _.
Arguments handler {W} _.

Section Dispatch.
Context {W : Type} `{!Externals W}.

(** Modelled from the spec: [APIView.check_permissions] of the REST
    framework, which is not part of this file set: every permission class
    is asked in turn and the first refusal raises. *)
Fixpoint check_permissions (perms : list (Request → bool)) (request : Request)
  : Handler W () :=
  match perms with
  | [] => mret ()
  | permission :: perms =>
      if permission request then check_permissions perms request
      else raise PermissionDenied
  end.

(** Modelled from the spec: [APIView.dispatch]: the checks of [initial]
    come first, the handler runs after them. *)
Definition dispatch (view : View W) (request : Request)
    (kwargs : gmap string string) : Handler W Outcome :=
  check_permissions (permission_classes view) request;;
  handler view request kwargs.

End Dispatch.

(** The request with parameter [k] taken out of the query string. *)
Definition without (k : string) (request : Request) : Request :=
  {| user := user request; query_params := delete k (query_params request) |}.

(** The request with nothing but parameter [k] in the query string. *)
Definition only (k : string) (request : Request) : Request :=
  {| user := user request;
     query_params :=
       match query_params request !! k with
       | Some v => {[ k := v ]}
       | None => ∅
       end |}.

(** ** AssetViewSet *)

Module AssetViewSet.

(** [super().get_queryset()] is the class attribute [queryset],
    [Asset.objects.all()]; the mixins of the class act in
    [filter_queryset], after this method. *)
Definition get_queryset (db : Database) (request : Request) : result QuerySet :=
  let queryset := objects_all (Asset_objects db) in
  let cluster_id := query_params request !! "cluster_id" in
  let asset_group_id := query_params request !! "asset_group_id" in
  let admin_user_id := query_params request !! "admin_user_id" in
  let system_user_id := query_params request !! "system_user_id" in
  let node_id := query_params request !! "node_id" in
  let queryset :=
    if truthy cluster_id then QS.cluster__id (str cluster_id) queryset
    else queryset in
  let queryset :=
    if truthy asset_group_id then QS.groups__id (str asset_group_id) queryset
    else queryset in
  queryset ←
    (if truthy admin_user_id then
       admin_user ← get_object_or_404 (AdminUser_objects db) admin_user_id;
       let assets_direct := asset_set admin_user.2 in
       let clusters := cluster_set admin_user.2 in
       mret (QS.cluster__id__in_or_id__in clusters assets_direct queryset)
     else mret queryset);
  queryset ←
    (if truthy system_user_id then
       system_user ← get_object_or_404 (SystemUser_objects db) system_user_id;
       let clusters := get_clusters system_user.2 in
       mret (QS.cluster__in clusters queryset)
     else mret queryset);
  queryset ←
    (if truthy node_id then
       node ← get_object_or_404 (Node_objects db) node_id;
       mret (QS.nodes__key__startswith db (node_key node.2) queryset)
     else mret queryset);
  mret queryset.

(** The five conditional blocks of [get_queryset], each as a function of
    the queryset it receives. *)
Definition by_cluster_id (request : Request) (queryset : QuerySet)
  : result QuerySet :=
  let cluster_id := query_params request !! "cluster_id" in
  mret (if truthy cluster_id then QS.cluster__id (str cluster_id) queryset
        else queryset).

Definition by_asset_group_id (request : Request) (queryset : QuerySet)
  : result QuerySet :=
  let asset_group_id := query_params request !! "asset_group_id" in
  mret (if truthy asset_group_id then QS.groups__id (str asset_group_id) queryset
        else queryset).

Definition by_admin_user_id (db : Database) (request : Request)
    (queryset : QuerySet) : result QuerySet :=
  let admin_user_id := query_params request !! "admin_user_id" in
  if truthy admin_user_id then
    admin_user ← get_object_or_404 (AdminUser_objects db) admin_user_id;
    let assets_direct := asset_set admin_user.2 in
    let clusters := cluster_set admin_user.2 in
    mret (QS.cluster__id__in_or_id__in clusters assets_direct queryset)
  else mret queryset.

Definition by_system_user_id (db : Database) (request : Request)
    (queryset : QuerySet) : result QuerySet :=
  let system_user_id := query_params request !! "system_user_id" in
  if truthy system_user_id then
    system_user ← get_object_or_404 (SystemUser_objects db) system_user_id;
    let clusters := get_clusters system_user.2 in
    mret (QS.cluster__in clusters queryset)
  else mret queryset.

Definition by_node_id (db : Database) (request : Request)
    (queryset : QuerySet) : result QuerySet :=
  let node_id := query_params request !! "node_id" in
  if truthy node_id then
    node ← get_object_or_404 (Node_objects db) node_id;
    mret (QS.nodes__key__startswith db (node_key node.2) queryset)
  else mret queryset.

(** The query parameters [get_queryset] reads, in the order of its
    blocks. *)
Definition params : list string :=
  ["cluster_id"; "asset_group_id"; "admin_user_id"; "system_user_id"; "node_id"].

(** The block that belongs to a parameter. *)
Definition block (db : Database) (request : Request) (k : string)
  : QuerySet → result QuerySet :=
  if decide (k = "cluster_id") then by_cluster_id request
  else if decide (k = "asset_group_id") then by_asset_group_id request
  else if decide (k = "admin_user_id") then by_admin_user_id db request
  else if decide (k = "system_user_id") then by_system_user_id db request
  else if decide (k = "node_id") then by_node_id db request
  else mret.

(** The blocks run on all assets in the order [ks] names them. *)
Definition in_order (db : Database) (request : Request) (ks : list string)
  : result QuerySet :=
  foldl (λ r k, r ≫= block db request k) (Ok (objects_all (Asset_objects db))) ks.

Section View.
Context {W : Type} `{!Externals W}.

(** The list action: the rows of [get_queryset], handed to the
    framework's filter backends, paginator and serializer. *)
Definition list_action (request : Request) (kwargs : gmap string string)
  : Handler W Outcome :=
  db ← tables;
  queryset ← lift (get_queryset db request);
  mret (Listed queryset).

Definition view : View W :=
  {| permission_classes := [IsSuperUserOrAppUser]; handler := list_action |}.
End View.

End AssetViewSet.

(** ** UserAssetListView *)

Module UserAssetListView.
Section View.
Context {W : Type} `{!Externals W}.

Definition get_queryset (request : Request) : Handler W QuerySet := λ s,
  let assets_granted := get_user_granted_assets (world s) (user request) in
  let queryset :=
    QS.id__in (pk <$> assets_granted)
      (objects_all (Asset_objects (database (world s)))) in
  (Ok queryset, s).

Definition list_action (request : Request) (kwargs : gmap string string)
  : Handler W Outcome :=
  queryset ← get_queryset request;
  mret (Listed queryset).

Definition view : View W :=
  {| permission_classes := [IsValidUser]; handler := list_action |}.
End View.
End UserAssetListView.

(** ** AssetListUpdateApi *)

Module AssetListUpdateApi.
Section View.
Context {W : Type} `{!Externals W}.

(** The class defines no method of its own: the bulk handlers are the
    framework's. *)
Definition bulk (request : Request) (kwargs : gmap string string)
  : Handler W Outcome := λ s,
  let '(response, w) := bulk_update request (world s) in
  (Ok (Responded response), {| world := w; log := log s |}).

Definition view : View W :=
  {| permission_classes := [IsSuperUser]; handler := bulk |}.
End View.
End AssetListUpdateApi.

(** ** AssetRefreshHardwareApi *)

Module AssetRefreshHardwareApi.
Section View.
Context {W : Type} `{!Externals W}.

Definition retrieve (request : Request) (kwargs : gmap string string)
  : Handler W Outcome :=
  let asset_id := kwargs !! "pk" in
  db ← tables;
  asset ← lift (get_object_or_404 (Asset_objects db) asset_id);
  r ← call UpdateAssetHardwareInfo update_asset_hardware_info_manual asset;
  let summary := r.2 in
  logger_debug summary;;
  if truthy_dict (summary !! "dark") then
    mret (Responded
            (mkResponse (DList (values (default [] (summary !! "dark"))))
                        (Some 501)))
  else
    mret (Responded (mkResponse (DDict [("msg", DStr "ok")]) None)).

Definition view : View W :=
  {| permission_classes := [IsSuperUser]; handler := retrieve |}.
End View.
End AssetRefreshHardwareApi.

(** ** AssetAdminUserTestApi *)

Module AssetAdminUserTestApi.
Section View.
Context {W : Type} `{!Externals W}.

Definition retrieve (request : Request) (kwargs : gmap string string)
  : Handler W Outcome :=
  let asset_id := kwargs !! "pk" in
  db ← tables;
  asset ← lift (get_object_or_404 (Asset_objects db) asset_id);
  '(ok, msg) ← call TestAssetConnectability test_asset_connectability_manual asset;
  if ok : bool then
    mret (Responded (mkResponse (DDict [("msg", DStr "pong")]) None))
  else
    mret (Responded (mkResponse (DDict [("error", msg)]) (Some 502))).

Definition view : View W :=
  {| permission_classes := [IsSuperUser]; handler := retrieve |}.
End View.
End AssetAdminUserTestApi.

(** ** Example data *)

Module Ex.

Definition web1 : Asset :=
  {| asset_cluster := Some "c1"; asset_groups := ["g1"]; asset_nodes := ["n1"; "n11"] |}.
Definition web2 : Asset :=
  {| asset_cluster := Some "c2"; asset_groups := ["g1"; "g2"]; asset_nodes := ["n2"] |}.
Definition db1 : Asset :=
  {| asset_cluster := Some "c3"; asset_groups := []; asset_nodes := ["n10"] |}.

Definition db : Database :=
  {| Asset_objects := {[ "a1" := web1; "a2" := web2; "a3" := db1 ]};
     AdminUser_objects :=
       {[ "root" := {| asset_set := ["a3"]; cluster_set := ["c1"] |} ]};
     SystemUser_objects :=
       {[ "dev" := {| get_clusters := ["c2"; "c3"] |} ]};
     Node_objects :=
       {[ "n1" := {| node_key := "0:1" |};
          "n11" := {| node_key := "0:1:1" |};
          "n10" := {| node_key := "0:10" |};
          "n2" := {| node_key := "0:2" |} ]} |}.

Definition anyone : User :=
  {| is_valid := true; is_superuser := false; is_app := false |}.
Definition admin : User :=
  {| is_valid := true; is_superuser := true; is_app := false |}.

Definition request (params : gmap string string) : Request :=
  {| user := anyone; query_params := params |}.
Definition admin_request : Request :=
  {| user := admin; query_params := ∅ |}.

Definition empty_cluster_id : Request := request {[ "cluster_id" := "" ]}.
Definition empty_admin_user_id : Request := request {[ "admin_user_id" := "" ]}.
Definition no_filter : Request :=
  request {[ "cluster_id" := ""; "hostname" := "web1" ]}.
Definition of_root : Request := request {[ "admin_user_id" := "root" ]}.
Definition of_dev : Request :=
  request {[ "system_user_id" := "dev"; "asset_group_id" := "g1" ]}.
Definition under_n1 : Request :=
  request {[ "node_id" := "n1"; "cluster_id" := "c1" ]}.
Definition of_nobody : Request := request {[ "system_user_id" := "nobody" ]}.

(** A world: the tables and the number of operations run so far. *)
Record World : Type := { world_db : Database; runs : nat }.

(** A fleet in which the hosts of cluster c3 cannot be reached. *)
Definition unreachable (asset : Instance Asset) : bool :=
  bool_decide (asset_cluster asset.2 = Some "c3").

Definition probe (asset : Instance Asset) (w : World)
  : (data * gmap string Dict) * World :=
  let summary : gmap string Dict :=
    if unreachable asset
    then {[ "contacted" := []; "dark" := [(pk asset, DStr "timed out")] ]}
    else {[ "contacted" := [(pk asset, DStr "ok")]; "dark" := [] ]} in
  ((DList [], summary), {| world_db := world_db w; runs := S (runs w) |}).

Definition ping (asset : Instance Asset) (w : World) : (bool * data) * World :=
  ((negb (unreachable asset),
    if unreachable asset then DStr "timed out" else DStr ""),
   {| world_db := world_db w; runs := S (runs w) |}).

#[global] Instance externals : Externals World :=
  {| database := world_db;
     get_user_granted_assets := λ w u, [("a2", web2)];
     update_asset_hardware_info_manual := probe;
     test_asset_connectability_manual := ping;
     bulk_update := λ request w, (mkResponse (DList []) None, w) |}.

Definition start : State World :=
  {| world := {| world_db := db; runs := 0 |}; log := [] |}.

(** The fleet with a system user and an admin user that have nothing, a
    top node whose key is empty, and an asset attached to no node. *)
Definition spare : Asset :=
  {| asset_cluster := Some "c1"; asset_groups := ["g2"]; asset_nodes := [] |}.

Definition db2 : Database :=
  {| Asset_objects := <[ "a4" := spare ]> (Asset_objects db);
     AdminUser_objects :=
       <[ "void" := {| asset_set := []; cluster_set := [] |} ]> (AdminUser_objects db);
     SystemUser_objects :=
       <[ "idle" := {| get_clusters := [] |} ]> (SystemUser_objects db);
     Node_objects := <[ "top" := {| node_key := "" |} ]> (Node_objects db) |}.

Definition only_n1 : Request := request {[ "node_id" := "n1" ]}.
Definition under_top : Request := request {[ "node_id" := "top" ]}.
Definition of_cluster_zz : Request := request {[ "cluster_id" := "zz" ]}.
Definition of_idle : Request := request {[ "system_user_id" := "idle" ]}.
Definition of_c1_g1 : Request :=
  request {[ "cluster_id" := "c1"; "asset_group_id" := "g1" ]}.
Definition of_c1_g1_noisy : Request :=
  {| user := admin;
     query_params :=
       {[ "cluster_id" := "c1"; "asset_group_id" := "g1"; "node_id" := "";
          "limit" := "10" ]} |}.

(** A world whose asset table is empty: what was granted is gone. *)
Definition bare : State World :=
  {| world :=
       {| world_db :=
            {| Asset_objects := ∅;
               AdminUser_objects := AdminUser_objects db;
               SystemUser_objects := SystemUser_objects db;
               Node_objects := Node_objects db |};
          runs := 0 |};
     log := [] |}.

End Ex.


(** ** Reading the query string *)

(** Parameter [k] is supplied with the non-empty value [v]: what the guard
    [if k:] of a block tests. *)
Definition supplied (request : Request) (k v : string) : Prop :=
  query_params request !! k = Some v ∧ v ≠ "".

(** What each block of [get_queryset] demands of an asset. *)
Module Demand.

Definition cluster_id (request : Request) (a : Instance Asset) : Prop :=
  ∀ v, supplied request "cluster_id" v → asset_cluster a.2 = Some v.

Definition asset_group_id (request : Request) (a : Instance Asset) : Prop :=
  ∀ v, supplied request "asset_group_id" v → v ∈ asset_groups a.2.

Definition admin_user_id (db : Database) (request : Request)
    (a : Instance Asset) : Prop :=
  ∀ v admin_user,
    supplied request "admin_user_id" v →
    AdminUser_objects db !! v = Some admin_user →
    QS.cluster_among (cluster_set admin_user) a ∨ pk a ∈ asset_set admin_user.

Definition system_user_id (db : Database) (request : Request)
    (a : Instance Asset) : Prop :=
  ∀ v system_user,
    supplied request "system_user_id" v →
    SystemUser_objects db !! v = Some system_user →
    QS.cluster_among (get_clusters system_user) a.

(** The asset is attached to a node whose key starts with [k]. *)
Definition under (db : Database) (k : string) (a : Instance Asset) : Prop :=
  ∃ nid n,
    nid ∈ asset_nodes a.2 ∧ Node_objects db !! nid = Some n ∧
    String.prefix k (node_key n) = true.

Definition node_id (db : Database) (request : Request)
    (a : Instance Asset) : Prop :=
  ∀ v node,
    supplied request "node_id" v →
    Node_objects db !! v = Some node →
    under db (node_key node) a.

Definition all (db : Database) (request : Request) (a : Instance Asset) : Prop :=
  cluster_id request a ∧ asset_group_id request a ∧
  admin_user_id db request a ∧ system_user_id db request a ∧
  node_id db request a.

End Demand.

(** Every identifier a block looks up names a row. *)
Definition resolvable (db : Database) (request : Request) : Prop :=
  (∀ v, supplied request "admin_user_id" v → is_Some (AdminUser_objects db !! v)) ∧
  (∀ v, supplied request "system_user_id" v → is_Some (SystemUser_objects db !! v)) ∧
  (∀ v, supplied request "node_id" v → is_Some (Node_objects db !! v)).

(** A block answers the same way on every queryset: it raises 404, or it
    lists each row a number of times that depends on the row only. *)
Definition pointwise (f : QuerySet → result QuerySet) : Prop :=
  (∃ m, ∀ qs, f qs = Ok (QS.expand m qs)) ∨ (∀ qs, f qs = Raise Http404).

(** How many times a queryset lists a row. *)
Definition times (a : Instance Asset) (qs : QuerySet) : nat :=
  length (filter (λ b, b = a) qs).

(** ** Basic facts *)

Lemma bind_Ok {A B} (f : A → result B) (a : A) : Ok a ≫= f = f a.
Proof. reflexivity. Qed.

Lemma bind_Raise {A B} (f : A → result B) (e : Exception) :
  Raise e ≫= f = Raise e.
Proof. reflexivity. Qed.

Lemma ret_Ok {A} (a : A) : mret a = Ok a.
Proof. reflexivity. Qed.

Lemma truthy_true (x : option string) :
  truthy x = true ↔ ∃ v, x = Some v ∧ v ≠ "".
Proof.
  destruct x as [v|]; simpl.
  - rewrite negb_true_iff, String.eqb_neq. split; [eauto|].
    by intros (? & [= ->] & ?).
  - split; [done|]. by intros (? & ? & ?).
Qed.

Lemma truthy_false (x : option string) :
  truthy x = false ↔ x = None ∨ x = Some "".
Proof.
  destruct x as [v|]; simpl.
  - rewrite negb_false_iff, String.eqb_eq. split; [intros ->; auto|].
    by intros [|[= ->]].
  - split; auto.
Qed.

Lemma truthy_supplied request k :
  truthy (query_params request !! k) = true ↔ ∃ v, supplied request k v.
Proof. apply truthy_true. Qed.

Lemma supplied_truthy request k v :
  supplied request k v → truthy (query_params request !! k) = true.
Proof. intros. apply truthy_supplied. eauto. Qed.

Lemma supplied_str request k v :
  supplied request k v → str (query_params request !! k) = v.
Proof. by intros [-> _]. Qed.

Lemma not_truthy_supplied request k v :
  truthy (query_params request !! k) = false → ¬ supplied request k v.
Proof. intros Hf Hs. apply supplied_truthy in Hs. congruence. Qed.

Lemma supplied_inj request k v v' :
  supplied request k v → supplied request k v' → v = v'.
Proof. intros [H1 _] [H2 _]. congruence. Qed.

Lemma append_cons c (k rest : string) :
  String c k +:+ rest = String c (k +:+ rest).
Proof. reflexivity. Qed.

Lemma prefix_append (k s : string) :
  String.prefix k s = true ↔ ∃ rest, s = k +:+ rest.
Proof.
  revert s. induction k as [|c k IH]; intros s; simpl.
  - destruct s; split; eauto.
  - destruct s as [|c' s]; simpl.
    + split; [done|]. by intros [rest Hr].
    + setoid_rewrite append_cons.
      destruct (Ascii.ascii_dec c c') as [->|Hne].
      * rewrite IH. split; intros [rest Hr]; exists rest; congruence.
      * split; [done|]. intros [rest Hr]. congruence.
Qed.

Lemma prefix_refl (k : string) : String.prefix k k = true.
Proof.
  apply prefix_append. exists "".
  induction k; [done|]. rewrite append_cons. congruence.
Qed.

(** ** Filters, row by row *)

Lemma expand_cons m a qs :
  QS.expand m (a :: qs) = replicate (m a) a ++ QS.expand m qs.
Proof. reflexivity. Qed.

Lemma expand_app m qs1 qs2 :
  QS.expand m (qs1 ++ qs2) = QS.expand m qs1 ++ QS.expand m qs2.
Proof. apply bind_app. Qed.

Lemma expand_replicate m n a :
  QS.expand m (replicate n a) = replicate (n * m a) a.
Proof.
  induction n as [|n IH]; [done|].
  simpl replicate at 1. rewrite expand_cons, IH.
  by rewrite <- replicate_add.
Qed.

Lemma expand_expand m1 m2 qs :
  QS.expand m1 (QS.expand m2 qs) = QS.expand (λ a, m2 a * m1 a) qs.
Proof.
  induction qs as [|a qs IH]; [done|].
  by rewrite !expand_cons, expand_app, expand_replicate, IH.
Qed.

Lemma expand_ext m m' qs :
  (∀ a, m a = m' a) → QS.expand m qs = QS.expand m' qs.
Proof.
  intros Hm. induction qs as [|a qs IH]; [done|].
  by rewrite !expand_cons, Hm, IH.
Qed.

Lemma expand_one qs : QS.expand (λ _, 1) qs = qs.
Proof.
  induction qs as [|a qs IH]; [done|].
  rewrite expand_cons, IH. reflexivity.
Qed.

Lemma elem_of_expand m qs a :
  a ∈ QS.expand m qs ↔ a ∈ qs ∧ 0 < m a.
Proof.
  unfold QS.expand. rewrite list_elem_of_bind. split.
  - intros (b & Hb & Hin). apply elem_of_replicate in Hb as [-> Hm].
    split; [done|lia].
  - intros [Hin Hm]. exists a. split; [|done].
    apply elem_of_replicate. split; [done|lia].
Qed.

Lemma filter_expand (P : Instance Asset → Prop) `{!∀ a, Decision (P a)} qs :
  filter P qs = QS.expand (λ a, if decide (P a) then 1 else 0) qs.
Proof.
  induction qs as [|a qs IH]; [done|].
  rewrite filter_cons, expand_cons, IH. by destruct (decide (P a)).
Qed.

Lemma join_expand {B} (related : Instance Asset → list B) qs :
  (a ← qs; _ ← related a; [a]) = QS.expand (λ a, length (related a)) qs.
Proof.
  induction qs as [|a qs IH]; [done|].
  rewrite bind_cons, expand_cons, IH. f_equal.
  induction (related a) as [|b l IHl]; [done|].
  rewrite bind_cons, IHl. reflexivity.
Qed.

Lemma filter_nonempty {B} (P : B → Prop) `{!∀ b, Decision (P b)} (l : list B) :
  0 < length (filter P l) ↔ ∃ b, b ∈ l ∧ P b.
Proof.
  split.
  - intros Hlen. destruct (filter P l) as [|b l'] eqn:Hf; [simpl in Hlen; lia|].
    assert (b ∈ filter P l) as Hb by (rewrite Hf; left).
    apply list_elem_of_filter in Hb as [? ?]. eauto.
  - intros (b & Hb & HP).
    assert (b ∈ filter P l) as Hin by (by apply list_elem_of_filter).
    destruct (filter P l); [by apply elem_of_nil in Hin|simpl; lia].
Qed.

Lemma elem_of_joined_nodes db a n :
  n ∈ QS.joined_nodes db a ↔
  ∃ nid, nid ∈ asset_nodes a.2 ∧ Node_objects db !! nid = Some n.
Proof.
  unfold QS.joined_nodes. rewrite list_elem_of_bind.
  split; intros (nid & H1 & H2); exists nid.
  - destruct (Node_objects db !! nid) as [n'|]; simpl in H1.
    + by apply list_elem_of_singleton in H1 as ->.
    + by apply elem_of_nil in H1.
  - rewrite H2. split; [left|done].
Qed.

Lemma groups__id_expand v qs :
  QS.groups__id v qs =
  QS.expand (λ a, length (filter (λ g, g = v) (asset_groups a.2))) qs.
Proof. apply (join_expand (λ a, filter (λ g, g = v) (asset_groups a.2))). Qed.

Lemma nodes__key__startswith_expand db k qs :
  QS.nodes__key__startswith db k qs =
  QS.expand
    (λ a, length (filter (λ n, String.prefix k (node_key n) = true)
                         (QS.joined_nodes db a))) qs.
Proof.
  apply (join_expand
           (λ a, filter (λ n, String.prefix k (node_key n) = true)
                        (QS.joined_nodes db a))).
Qed.

Lemma elem_of_cluster__id v qs a :
  a ∈ QS.cluster__id v qs ↔ a ∈ qs ∧ asset_cluster a.2 = Some v.
Proof. unfold QS.cluster__id. rewrite list_elem_of_filter. tauto. Qed.

Lemma elem_of_groups__id v qs a :
  a ∈ QS.groups__id v qs ↔ a ∈ qs ∧ v ∈ asset_groups a.2.
Proof.
  rewrite groups__id_expand, elem_of_expand, filter_nonempty.
  split; intros [Hin Hg]; (split; [done|]).
  - by destruct Hg as (g & Hg & ->).
  - eauto.
Qed.

Lemma elem_of_cluster__id__in_or_id__in clusters ids qs a :
  a ∈ QS.cluster__id__in_or_id__in clusters ids qs ↔
  a ∈ qs ∧ (QS.cluster_among clusters a ∨ pk a ∈ ids).
Proof. unfold QS.cluster__id__in_or_id__in. rewrite list_elem_of_filter. tauto. Qed.

Lemma elem_of_cluster__in clusters qs a :
  a ∈ QS.cluster__in clusters qs ↔ a ∈ qs ∧ QS.cluster_among clusters a.
Proof. unfold QS.cluster__in. rewrite list_elem_of_filter. tauto. Qed.

Lemma elem_of_nodes__key__startswith db k qs a :
  a ∈ QS.nodes__key__startswith db k qs ↔ a ∈ qs ∧ Demand.under db k a.
Proof.
  unfold Demand.under.
  rewrite nodes__key__startswith_expand, elem_of_expand, filter_nonempty.
  split; intros [Hin Hn]; (split; [done|]).
  - destruct Hn as (n & Hn & Hk). apply elem_of_joined_nodes in Hn as (nid & ? & ?).
    eauto.
  - destruct Hn as (nid & n & ? & ? & ?). exists n. split; [|done].
    apply elem_of_joined_nodes. eauto.
Qed.

(** ** The blocks of get_queryset *)

Lemma pointwise_keep : pointwise mret.
Proof. left. exists (λ _, 1). intros qs. by rewrite expand_one. Qed.

Lemma pointwise_filter (P : Instance Asset → Prop) `{!∀ a, Decision (P a)} :
  pointwise (λ qs, Ok (filter P qs)).
Proof. left. eexists. intros qs. by rewrite filter_expand. Qed.

Lemma by_cluster_id_pointwise request :
  pointwise (AssetViewSet.by_cluster_id request).
Proof.
  unfold AssetViewSet.by_cluster_id; simpl.
  destruct (truthy _); [|apply pointwise_keep].
  apply pointwise_filter.
Qed.

Lemma by_asset_group_id_pointwise request :
  pointwise (AssetViewSet.by_asset_group_id request).
Proof.
  unfold AssetViewSet.by_asset_group_id; simpl.
  destruct (truthy _); [|apply pointwise_keep].
  left. eexists. intros qs. f_equal. apply groups__id_expand.
Qed.

Lemma get_queryset_blocks db request :
  AssetViewSet.get_queryset db request =
  q ← AssetViewSet.by_cluster_id request (objects_all (Asset_objects db));
  q ← AssetViewSet.by_asset_group_id request q;
  q ← AssetViewSet.by_admin_user_id db request q;
  q ← AssetViewSet.by_system_user_id db request q;
  AssetViewSet.by_node_id db request q.
Proof.
  unfold AssetViewSet.get_queryset, AssetViewSet.by_cluster_id,
    AssetViewSet.by_asset_group_id, AssetViewSet.by_admin_user_id,
    AssetViewSet.by_system_user_id, AssetViewSet.by_node_id.
  rewrite !ret_Ok, !bind_Ok.
  repeat match goal with
         | |- context [truthy ?x] => destruct (truthy x)
         | |- context [get_object_or_404 ?t ?x] => destruct (get_object_or_404 t x)
         end; reflexivity.
Qed.

Lemma get_queryset_in_order db request :
  AssetViewSet.get_queryset db request =
  AssetViewSet.in_order db request AssetViewSet.params.
Proof.
  rewrite get_queryset_blocks. unfold AssetViewSet.in_order, AssetViewSet.params.
  simpl foldl.
  change (AssetViewSet.block db request "cluster_id")
    with (AssetViewSet.by_cluster_id request).
  change (AssetViewSet.block db request "asset_group_id")
    with (AssetViewSet.by_asset_group_id request).
  change (AssetViewSet.block db request "admin_user_id")
    with (AssetViewSet.by_admin_user_id db request).
  change (AssetViewSet.block db request "system_user_id")
    with (AssetViewSet.by_system_user_id db request).
  change (AssetViewSet.block db request "node_id")
    with (AssetViewSet.by_node_id db request).
  unfold AssetViewSet.by_cluster_id, AssetViewSet.by_asset_group_id.
  rewrite !ret_Ok, !bind_Ok.
  destruct (AssetViewSet.by_admin_user_id _ _ _) as [q3|]; [|done].
  rewrite !bind_Ok.
  by destruct (AssetViewSet.by_system_user_id _ _ _) as [q4|].
Qed.

(** *** What a block keeps, and when it answers *)

Lemma demand_truthy request k (P : string → Prop) :
  truthy (query_params request !! k) = true →
  P (str (query_params request !! k)) ↔ (∀ v, supplied request k v → P v).
Proof.
  intros Ht. apply truthy_supplied in Ht as [v Hv].
  rewrite (supplied_str _ _ _ Hv). split; [|by auto].
  intros HP v' Hv'. by rewrite <- (supplied_inj _ _ _ _ Hv Hv').
Qed.

Lemma demand_falsy request k (P : string → Prop) :
  truthy (query_params request !! k) = false →
  ∀ v, supplied request k v → P v.
Proof. intros Hf v Hv. by apply not_truthy_supplied with (v := v) in Hf. Qed.

Lemma get_object_or_404_Some {A} (table : gmap Id A) v :
  get_object_or_404 table (Some v) =
  match table !! v with Some row => Ok (v, row) | None => Raise Http404 end.
Proof. reflexivity. Qed.

Lemma elem_of_by_cluster_id request qs qs' a :
  AssetViewSet.by_cluster_id request qs = Ok qs' →
  a ∈ qs' ↔ a ∈ qs ∧ Demand.cluster_id request a.
Proof.
  unfold AssetViewSet.by_cluster_id, Demand.cluster_id.
  destruct (truthy _) eqn:Ht; intros [= <-].
  - rewrite elem_of_cluster__id.
    by rewrite (demand_truthy _ _ (λ v, asset_cluster a.2 = Some v) Ht).
  - split; [|tauto]. intros Hin. split; [done|]. by apply demand_falsy.
Qed.

Lemma elem_of_by_asset_group_id request qs qs' a :
  AssetViewSet.by_asset_group_id request qs = Ok qs' →
  a ∈ qs' ↔ a ∈ qs ∧ Demand.asset_group_id request a.
Proof.
  unfold AssetViewSet.by_asset_group_id, Demand.asset_group_id.
  destruct (truthy _) eqn:Ht; intros [= <-].
  - rewrite elem_of_groups__id.
    by rewrite (demand_truthy _ _ (λ v, v ∈ asset_groups a.2) Ht).
  - split; [|tauto]. intros Hin. split; [done|]. by apply demand_falsy.
Qed.

(** The three blocks that look a row up share one shape. *)
Section LookupBlock.
Context {A : Type} (table : gmap Id A) (request : Request) (k : string).
Context (f : Instance A → QuerySet → QuerySet).

Let block (qs : QuerySet) : result QuerySet :=
  if truthy (query_params request !! k) then
    row ← get_object_or_404 table (query_params request !! k);
    mret (f row qs)
  else mret qs.

Lemma lookup_block_cases :
  (truthy (query_params request !! k) = false ∧ ∀ qs, block qs = Ok qs) ∨
  (∃ v, supplied request k v ∧
        ∀ qs, block qs =
              match table !! v with
              | Some row => Ok (f (v, row) qs)
              | None => Raise Http404
              end).
Proof.
  unfold block. destruct (truthy _) eqn:Ht; [right|left; by split].
  apply truthy_true in Ht as (v & Hq & Hne). exists v. split; [done|].
  intros qs. rewrite Hq, get_object_or_404_Some. by destruct (table !! v).
Qed.

Lemma elem_of_lookup_block (P : A → Instance Asset → Prop) qs qs' a :
  (∀ row q, a ∈ f row q ↔ a ∈ q ∧ P row.2 a) →
  block qs = Ok qs' →
  a ∈ qs' ↔
  a ∈ qs ∧ ∀ v row, supplied request k v → table !! v = Some row → P row a.
Proof.
  intros Hf. destruct lookup_block_cases as [[Ht Hb]|(v & Hv & Hb)]; rewrite Hb.
  - intros [= <-]. split; [|tauto]. intros Hin. split; [done|].
    intros v row Hv. by apply not_truthy_supplied with (v := v) in Ht.
  - destruct (table !! v) as [row|] eqn:Hl; [|done].
    intros [= <-]. rewrite Hf. split; intros [Hin Hd]; (split; [done|]).
    + intros v' row' Hv' Hl'. rewrite <- (supplied_inj _ _ _ _ Hv Hv') in Hl'.
      by simplify_eq.
    + by apply (Hd v row).
Qed.

Lemma lookup_block_Ok qs :
  is_Ok (block qs) ↔ (∀ v, supplied request k v → is_Some (table !! v)).
Proof.
  destruct lookup_block_cases as [[Ht Hb]|(v & Hv & Hb)]; rewrite Hb.
  - split; [|by eexists]. intros _ v Hv.
    by apply not_truthy_supplied with (v := v) in Ht.
  - destruct (table !! v) as [row|] eqn:Hl.
    + split; [|by eexists]. intros _ v' Hv'.
      rewrite <- (supplied_inj _ _ _ _ Hv Hv'). by rewrite Hl.
    + split; [by intros [? ?]|]. intros Hs.
      destruct (Hs v Hv) as [? ?]. congruence.
Qed.

Lemma lookup_block_pointwise :
  (∀ row, pointwise (λ qs, Ok (f row qs))) → pointwise block.
Proof.
  intros Hf. destruct lookup_block_cases as [[Ht Hb]|(v & Hv & Hb)].
  - left. exists (λ _, 1). intros qs. by rewrite Hb, expand_one.
  - destruct (table !! v) as [row|]; [|by right].
    destruct (Hf (v, row)) as [[m Hm]|Hm]; [|by specialize (Hm [])].
    left. exists m. intros qs. by rewrite Hb.
Qed.

End LookupBlock.

Lemma elem_of_by_admin_user_id db request qs qs' a :
  AssetViewSet.by_admin_user_id db request qs = Ok qs' →
  a ∈ qs' ↔ a ∈ qs ∧ Demand.admin_user_id db request a.
Proof.
  apply (elem_of_lookup_block (AdminUser_objects db) request "admin_user_id"
           (λ u, QS.cluster__id__in_or_id__in (cluster_set u.2) (asset_set u.2))
           (λ u a, QS.cluster_among (cluster_set u) a ∨ pk a ∈ asset_set u)).
  intros u q. apply elem_of_cluster__id__in_or_id__in.
Qed.

Lemma by_admin_user_id_Ok db request qs :
  is_Ok (AssetViewSet.by_admin_user_id db request qs) ↔
  (∀ v, supplied request "admin_user_id" v → is_Some (AdminUser_objects db !! v)).
Proof.
  apply (lookup_block_Ok (AdminUser_objects db) request "admin_user_id"
           (λ u, QS.cluster__id__in_or_id__in (cluster_set u.2) (asset_set u.2))).
Qed.

Lemma elem_of_by_system_user_id db request qs qs' a :
  AssetViewSet.by_system_user_id db request qs = Ok qs' →
  a ∈ qs' ↔ a ∈ qs ∧ Demand.system_user_id db request a.
Proof.
  apply (elem_of_lookup_block (SystemUser_objects db) request "system_user_id"
           (λ u, QS.cluster__in (get_clusters u.2))
           (λ u a, QS.cluster_among (get_clusters u) a)).
  intros u q. apply elem_of_cluster__in.
Qed.

Lemma by_system_user_id_Ok db request qs :
  is_Ok (AssetViewSet.by_system_user_id db request qs) ↔
  (∀ v, supplied request "system_user_id" v → is_Some (SystemUser_objects db !! v)).
Proof.
  apply (lookup_block_Ok (SystemUser_objects db) request "system_user_id"
           (λ u, QS.cluster__in (get_clusters u.2))).
Qed.

Lemma elem_of_by_node_id db request qs qs' a :
  AssetViewSet.by_node_id db request qs = Ok qs' →
  a ∈ qs' ↔ a ∈ qs ∧ Demand.node_id db request a.
Proof.
  apply (elem_of_lookup_block (Node_objects db) request "node_id"
           (λ n, QS.nodes__key__startswith db (node_key n.2))
           (λ n a, Demand.under db (node_key n) a)).
  intros n q. apply elem_of_nodes__key__startswith.
Qed.

Lemma by_node_id_Ok db request qs :
  is_Ok (AssetViewSet.by_node_id db request qs) ↔
  (∀ v, supplied request "node_id" v → is_Some (Node_objects db !! v)).
Proof.
  apply (lookup_block_Ok (Node_objects db) request "node_id"
           (λ n, QS.nodes__key__startswith db (node_key n.2))).
Qed.

Lemma by_admin_user_id_pointwise db request :
  pointwise (AssetViewSet.by_admin_user_id db request).
Proof.
  apply (lookup_block_pointwise (AdminUser_objects db) request "admin_user_id"
           (λ u, QS.cluster__id__in_or_id__in (cluster_set u.2) (asset_set u.2))).
  intros u. apply pointwise_filter.
Qed.

Lemma by_system_user_id_pointwise db request :
  pointwise (AssetViewSet.by_system_user_id db request).
Proof.
  apply (lookup_block_pointwise (SystemUser_objects db) request "system_user_id"
           (λ u, QS.cluster__in (get_clusters u.2))).
  intros u. apply pointwise_filter.
Qed.

Lemma by_node_id_pointwise db request :
  pointwise (AssetViewSet.by_node_id db request).
Proof.
  apply (lookup_block_pointwise (Node_objects db) request "node_id"
           (λ n, QS.nodes__key__startswith db (node_key n.2))).
  intros n. left. eexists. intros qs. f_equal. apply nodes__key__startswith_expand.
Qed.

Lemma block_pointwise db request k : pointwise (AssetViewSet.block db request k).
Proof.
  unfold AssetViewSet.block. repeat case_decide;
    auto using by_cluster_id_pointwise, by_asset_group_id_pointwise,
      by_admin_user_id_pointwise, by_system_user_id_pointwise,
      by_node_id_pointwise, pointwise_keep.
Qed.

Lemma pointwise_comm f g (r : result QuerySet) :
  pointwise f → pointwise g → (r ≫= f) ≫= g = (r ≫= g) ≫= f.
Proof.
  intros [[mf Hf]|Hf] [[mg Hg]|Hg]; destruct r as [qs|e]; try done; simpl;
    rewrite ?Hf, ?Hg; simpl; rewrite ?Hf, ?Hg; try done.
  rewrite !expand_expand. f_equal. apply expand_ext. intros a. lia.
Qed.

Lemma in_order_permutation db request ks ks' :
  ks ≡ₚ ks' →
  AssetViewSet.in_order db request ks = AssetViewSet.in_order db request ks'.
Proof.
  unfold AssetViewSet.in_order.
  generalize (Ok (objects_all (Asset_objects db)) : result QuerySet).
  intros r Hperm. revert r.
  induction Hperm as [|k ks ks' _ IH|k1 k2 ks|ks1 ks2 ks3 _ IH1 _ IH2]; intros r.
  - reflexivity.
  - simpl. apply IH.
  - simpl. f_equal. apply pointwise_comm; apply block_pointwise.
  - by rewrite IH1.
Qed.

(** *** get_queryset as a whole *)

Lemma elem_of_get_queryset db request qs a :
  AssetViewSet.get_queryset db request = Ok qs →
  a ∈ qs ↔ a ∈ objects_all (Asset_objects db) ∧ Demand.all db request a.
Proof.
  rewrite get_queryset_blocks. unfold Demand.all.
  destruct (AssetViewSet.by_cluster_id _ _) as [q1|] eqn:H1; [|done].
  rewrite bind_Ok.
  destruct (AssetViewSet.by_asset_group_id _ _) as [q2|] eqn:H2; [|done].
  rewrite bind_Ok.
  destruct (AssetViewSet.by_admin_user_id _ _ _) as [q3|] eqn:H3; [|done].
  rewrite bind_Ok.
  destruct (AssetViewSet.by_system_user_id _ _ _) as [q4|] eqn:H4; [|done].
  rewrite bind_Ok. intros H5.
  rewrite (elem_of_by_node_id _ _ _ _ a H5),
    (elem_of_by_system_user_id _ _ _ _ a H4),
    (elem_of_by_admin_user_id _ _ _ _ a H3),
    (elem_of_by_asset_group_id _ _ _ a H2),
    (elem_of_by_cluster_id _ _ _ a H1).
  tauto.
Qed.

Lemma get_queryset_Ok db request :
  is_Ok (AssetViewSet.get_queryset db request) ↔ resolvable db request.
Proof.
  rewrite get_queryset_blocks. unfold resolvable.
  unfold AssetViewSet.by_cluster_id, AssetViewSet.by_asset_group_id.
  rewrite !ret_Ok, !bind_Ok.
  match goal with
  | |- context [AssetViewSet.by_admin_user_id db request ?q] =>
      rewrite <- (by_admin_user_id_Ok db request q);
      destruct (AssetViewSet.by_admin_user_id db request q) as [q3|e3]
  end.
  - rewrite bind_Ok.
    rewrite <- (by_system_user_id_Ok db request q3).
    destruct (AssetViewSet.by_system_user_id db request q3) as [q4|e4].
    + rewrite bind_Ok. rewrite <- (by_node_id_Ok db request q4).
      split; [intros ?; split_and!; try done; by eexists|tauto].
    + rewrite bind_Raise. split; [by intros [? ?]|]. by intros (_ & [? ?] & _).
  - rewrite bind_Raise. split; [by intros [? ?]|]. by intros ([? ?] & _).
Qed.

Lemma get_queryset_raises db request e :
  AssetViewSet.get_queryset db request = Raise e → e = Http404.
Proof.
  rewrite get_queryset_in_order. unfold AssetViewSet.in_order.
  generalize (objects_all (Asset_objects db)). generalize AssetViewSet.params.
  intros ks. induction ks as [|k ks IH] using rev_ind; intros qs; [done|].
  rewrite foldl_snoc.
  destruct (foldl _ _ ks) as [q|e'] eqn:Hks.
  - rewrite bind_Ok. destruct (block_pointwise db request k) as [[m Hm]|Hm];
      rewrite Hm; congruence.
  - rewrite bind_Raise. intros [= ->]. by apply (IH qs).
Qed.

(** *** Requests with a parameter taken out, or left alone *)

Lemma supplied_without request k k' v :
  supplied (without k request) k' v ↔ k' ≠ k ∧ supplied request k' v.
Proof.
  unfold supplied, without; simpl. destruct (decide (k' = k)) as [->|Hne].
  - rewrite lookup_delete_eq. split; [by intros [? ?]|by intros [? _]].
  - rewrite lookup_delete_ne by done. tauto.
Qed.

Lemma supplied_only request k k' v :
  supplied (only k request) k' v ↔ k' = k ∧ supplied request k v.
Proof.
  unfold supplied, only; simpl. destruct (decide (k' = k)) as [->|Hne].
  - destruct (query_params request !! k) as [w|].
    + rewrite lookup_singleton_eq. tauto.
    + rewrite lookup_empty. split; [by intros [? ?]|by intros (_ & ? & _)].
  - destruct (query_params request !! k) as [w|].
    + rewrite lookup_singleton_ne by done. split; [by intros [? ?]|by intros [? _]].
    + rewrite lookup_empty. split; [by intros [? ?]|by intros [? _]].
Qed.

Create HintDb demand discriminated.

#[local] Hint Extern 2 (supplied (without _ _) _ _) =>
  apply supplied_without; split; [discriminate|] : demand.
#[local] Hint Extern 2 (supplied (only _ _) _ _) =>
  apply supplied_only; split; [reflexivity|] : demand.

Ltac unfold_demands :=
  unfold Demand.all, Demand.cluster_id, Demand.asset_group_id,
    Demand.admin_user_id, Demand.system_user_id, Demand.node_id, resolvable in *.

(** Move a hypothesis about a trimmed request to the request itself. *)
Ltac widen :=
  repeat match goal with
         | H : supplied (without _ _) _ _ |- _ =>
             apply supplied_without in H as [? ?]
         | H : supplied (only _ _) _ _ |- _ =>
             apply supplied_only in H as [? ?]
         end.

Ltac demand := intros; widen; simplify_eq; eauto with demand.

(** The demands of a request against those of the request without the
    parameter that [Hv] says is supplied. *)
Ltac narrowed_by Hv :=
  unfold_demands; split;
  [ intros (? & ? & ? & ? & ?); split_and!; demand
  | intros ((? & ? & ? & ? & ?) & ?); split_and!; try (by demand);
    let Hv' := fresh in let Hu' := fresh in
    intros ? ? Hv' Hu'; rewrite <- (supplied_inj _ _ _ _ Hv Hv') in Hu';
    by simplify_eq ].

Lemma demand_without_admin_user_id db request v admin_user a :
  supplied request "admin_user_id" v →
  AdminUser_objects db !! v = Some admin_user →
  Demand.all db request a ↔
  Demand.all db (without "admin_user_id" request) a ∧
  (QS.cluster_among (cluster_set admin_user) a ∨ pk a ∈ asset_set admin_user).
Proof. intros Hv Hu. narrowed_by Hv. Qed.

Lemma demand_without_system_user_id db request v system_user a :
  supplied request "system_user_id" v →
  SystemUser_objects db !! v = Some system_user →
  Demand.all db request a ↔
  Demand.all db (without "system_user_id" request) a ∧
  QS.cluster_among (get_clusters system_user) a.
Proof. intros Hv Hu. narrowed_by Hv. Qed.

Lemma demand_without_node_id db request v node a :
  supplied request "node_id" v →
  Node_objects db !! v = Some node →
  Demand.all db request a ↔
  Demand.all db (without "node_id" request) a ∧
  Demand.under db (node_key node) a.
Proof. intros Hv Hu. narrowed_by Hv. Qed.

Lemma resolvable_with db request k v :
  supplied request k v →
  (k = "admin_user_id" → is_Some (AdminUser_objects db !! v)) →
  (k = "system_user_id" → is_Some (SystemUser_objects db !! v)) →
  (k = "node_id" → is_Some (Node_objects db !! v)) →
  resolvable db (without k request) → resolvable db request.
Proof.
  unfold_demands. intros Hv Ha Hs Hn (H1 & H2 & H3).
  split_and!; intros v' Hv'.
  - destruct (decide (k = "admin_user_id")) as [->|Hne].
    + rewrite <- (supplied_inj _ _ _ _ Hv Hv'). auto.
    + apply H1, supplied_without. split; [congruence|done].
  - destruct (decide (k = "system_user_id")) as [->|Hne].
    + rewrite <- (supplied_inj _ _ _ _ Hv Hv'). auto.
    + apply H2, supplied_without. split; [congruence|done].
  - destruct (decide (k = "node_id")) as [->|Hne].
    + rewrite <- (supplied_inj _ _ _ _ Hv Hv'). auto.
    + apply H3, supplied_without. split; [congruence|done].
Qed.

(** One block at a time: the result with parameter [k] is the result
    without it, narrowed by what [k] demands. *)
Lemma get_queryset_one_more db request k v (P : Instance Asset → Prop) qs0 :
  supplied request k v →
  (k = "admin_user_id" → is_Some (AdminUser_objects db !! v)) →
  (k = "system_user_id" → is_Some (SystemUser_objects db !! v)) →
  (k = "node_id" → is_Some (Node_objects db !! v)) →
  (∀ a, Demand.all db request a ↔ Demand.all db (without k request) a ∧ P a) →
  AssetViewSet.get_queryset db (without k request) = Ok qs0 →
  ∃ qs, AssetViewSet.get_queryset db request = Ok qs ∧
        ∀ a, a ∈ qs ↔ a ∈ qs0 ∧ P a.
Proof.
  intros Hv Ha Hs Hn HP H0.
  assert (is_Ok (AssetViewSet.get_queryset db request)) as [qs Hqs].
  { apply get_queryset_Ok, (resolvable_with _ _ k v); try done.
    apply get_queryset_Ok. by exists qs0. }
  exists qs. split; [done|]. intros a.
  rewrite (elem_of_get_queryset _ _ _ a Hqs), (elem_of_get_queryset _ _ _ a H0), HP.
  tauto.
Qed.

(** ** Properties of get_queryset *)

(** C8. With none of the five parameters present in the query string, or
    with each of them empty, [get_queryset] returns the base queryset
    unchanged: all assets. *)
Theorem get_queryset_no_parameters db request :
  (∀ k, k ∈ AssetViewSet.params →
        query_params request !! k = None ∨ query_params request !! k = Some "") →
  AssetViewSet.get_queryset db request = Ok (objects_all (Asset_objects db)).
Proof.
  intros H.
  assert (∀ k, k ∈ AssetViewSet.params →
               truthy (query_params request !! k) = false) as Hf.
  { intros k Hk. by apply truthy_false, H. }
  unfold AssetViewSet.get_queryset.
  rewrite (Hf "cluster_id"), (Hf "asset_group_id"), (Hf "admin_user_id"),
    (Hf "system_user_id"), (Hf "node_id") by compute_done.
  reflexivity.
Qed.

(** On the example fleet: [?cluster_id=&hostname=web1] filters nothing. *)
Lemma get_queryset_no_parameters_witness :
  AssetViewSet.get_queryset Ex.db Ex.no_filter =
  Ok (objects_all (Asset_objects Ex.db)).
Proof.
  apply get_queryset_no_parameters. intros k Hk. unfold AssetViewSet.params in Hk.
  repeat (apply elem_of_cons in Hk; destruct Hk as [->|Hk]);
    [..|by apply elem_of_nil in Hk]; vm_compute; auto.
Defined.

(** C1, as stated, fails on a parameter supplied with an empty value:
    [?cluster_id=] is in the query string, and the answer still holds an
    asset of another cluster. *)
Lemma empty_cluster_id_is_not_filtered :
  query_params Ex.empty_cluster_id !! "cluster_id" = Some "" ∧
  AssetViewSet.get_queryset Ex.db Ex.empty_cluster_id =
    Ok (objects_all (Asset_objects Ex.db)) ∧
  ("a1", Ex.web1) ∈ objects_all (Asset_objects Ex.db) ∧
  asset_cluster Ex.web1 ≠ Some "".
Proof. split_and!; [reflexivity|reflexivity|compute_done|discriminate]. Qed.

(** C1, amended. [get_queryset] applies each filter exactly when its
    parameter is supplied with a non-empty value: an asset is in the answer
    exactly when it is an asset and meets the demand of every such
    parameter (cluster id, group membership, the admin user's clusters or
    assets, the system user's clusters, a node key under the node's), and
    nothing else is asked of it. The answer exists exactly when every
    identifier that is looked up names a row. *)
Theorem get_queryset_filters_when_nonempty db request :
  (is_Ok (AssetViewSet.get_queryset db request) ↔ resolvable db request) ∧
  (∀ qs a,
     AssetViewSet.get_queryset db request = Ok qs →
     a ∈ qs ↔ a ∈ objects_all (Asset_objects db) ∧ Demand.all db request a).
Proof.
  split; [apply get_queryset_Ok|].
  intros qs a. apply elem_of_get_queryset.
Qed.

(** C2, as stated, fails: asset a3 lies in cluster c3, which is not a
    cluster of admin user root, and it is kept all the same, being one of
    root's own assets. *)
Lemma admin_user_filter_keeps_direct_asset :
  ∃ admin_user qs,
    supplied Ex.of_root "admin_user_id" "root" ∧
    AdminUser_objects Ex.db !! "root" = Some admin_user ∧
    AssetViewSet.get_queryset Ex.db Ex.of_root = Ok qs ∧
    ("a3", Ex.db1) ∈ qs ∧
    ¬ QS.cluster_among (cluster_set admin_user) ("a3", Ex.db1).
Proof.
  eexists _, _. split_and!; [split; [reflexivity|discriminate]|reflexivity
    |vm_compute; reflexivity|compute_done|compute_done].
Qed.

(** C2, amended. With [admin_user_id] supplied and naming an admin user,
    [get_queryset] keeps, of what the other parameters let through, exactly
    the assets whose cluster is one of the admin user's clusters or that are
    themselves among the admin user's assets. *)
Theorem admin_user_filter db request v admin_user qs0 :
  supplied request "admin_user_id" v →
  AdminUser_objects db !! v = Some admin_user →
  AssetViewSet.get_queryset db (without "admin_user_id" request) = Ok qs0 →
  ∃ qs,
    AssetViewSet.get_queryset db request = Ok qs ∧
    ∀ a, a ∈ qs ↔
         a ∈ qs0 ∧
         (QS.cluster_among (cluster_set admin_user) a ∨
          pk a ∈ asset_set admin_user).
Proof.
  intros Hv Hu H0.
  apply (get_queryset_one_more db request "admin_user_id" v);
    [done|by rewrite Hu|discriminate|discriminate| |done].
  intros a. by apply (demand_without_admin_user_id _ _ v).
Qed.

(** On the example fleet: the assets of admin user root. *)
Lemma admin_user_filter_witness :
  ∃ qs,
    AssetViewSet.get_queryset Ex.db Ex.of_root = Ok qs ∧
    ∀ a, a ∈ qs ↔
         a ∈ objects_all (Asset_objects Ex.db) ∧
         (QS.cluster_among ["c1"] a ∨ pk a ∈ ["a3"]).
Proof.
  apply (admin_user_filter Ex.db Ex.of_root "root"
           {| asset_set := ["a3"]; cluster_set := ["c1"] |}).
  - split; [reflexivity|discriminate].
  - reflexivity.
  - reflexivity.
Defined.

(** C3. With [node_id] supplied and naming a node, [get_queryset] keeps, of
    what the other parameters let through, exactly the assets attached to
    some node whose key starts with that node's key. So the assets of the
    node itself are kept, and so are those of every node whose key extends
    the node's key, its descendants among them. *)
Theorem node_filter db request v node qs0 :
  supplied request "node_id" v →
  Node_objects db !! v = Some node →
  AssetViewSet.get_queryset db (without "node_id" request) = Ok qs0 →
  ∃ qs,
    AssetViewSet.get_queryset db request = Ok qs ∧
    (∀ a, a ∈ qs ↔
          a ∈ qs0 ∧
          ∃ nid n,
            nid ∈ asset_nodes a.2 ∧ Node_objects db !! nid = Some n ∧
            String.prefix (node_key node) (node_key n) = true) ∧
    (∀ a, a ∈ qs0 → v ∈ asset_nodes a.2 → a ∈ qs) ∧
    (∀ a nid n rest,
       a ∈ qs0 → nid ∈ asset_nodes a.2 → Node_objects db !! nid = Some n →
       node_key n = node_key node +:+ rest → a ∈ qs).
Proof.
  intros Hv Hn H0.
  destruct (get_queryset_one_more db request "node_id" v
              (Demand.under db (node_key node)) qs0) as (qs & Hqs & Hin);
    [done|discriminate|discriminate|by rewrite Hn| |done|].
  { intros a. by apply (demand_without_node_id _ _ v). }
  exists qs. split_and!; [done|done|..].
  - intros a Ha Hat. apply Hin. split; [done|].
    exists v, node. split_and!; [done|done|apply prefix_refl].
  - intros a nid n rest Ha Hat Hnid Hkey. apply Hin. split; [done|].
    exists nid, n. split_and!; [done|done|]. apply prefix_append. eauto.
Qed.

(** On the example fleet: the assets of cluster c1 under node n1. *)
Lemma node_filter_witness :
  ∃ qs,
    AssetViewSet.get_queryset Ex.db Ex.under_n1 = Ok qs ∧
    (∀ a, a ∈ qs ↔
          a ∈ [("a1", Ex.web1)] ∧
          ∃ nid n,
            nid ∈ asset_nodes a.2 ∧ Node_objects Ex.db !! nid = Some n ∧
            String.prefix "0:1" (node_key n) = true) ∧
    (∀ a, a ∈ [("a1", Ex.web1)] → "n1" ∈ asset_nodes a.2 → a ∈ qs) ∧
    (∀ a nid n rest,
       a ∈ [("a1", Ex.web1)] → nid ∈ asset_nodes a.2 →
       Node_objects Ex.db !! nid = Some n →
       node_key n = "0:1" +:+ rest → a ∈ qs).
Proof.
  apply (node_filter Ex.db Ex.under_n1 "n1" {| node_key := "0:1" |}).
  - split; [reflexivity|discriminate].
  - reflexivity.
  - reflexivity.
Defined.

(** C7. With [system_user_id] supplied and naming a system user,
    [get_queryset] keeps, of what the other parameters let through, exactly
    the assets whose cluster is one of the clusters [get_clusters()]
    returns. An asset outside those clusters is never in the answer,
    whatever else ties it to the system user. *)
Theorem system_user_filter db request v system_user qs0 :
  supplied request "system_user_id" v →
  SystemUser_objects db !! v = Some system_user →
  AssetViewSet.get_queryset db (without "system_user_id" request) = Ok qs0 →
  ∃ qs,
    AssetViewSet.get_queryset db request = Ok qs ∧
    (∀ a, a ∈ qs ↔ a ∈ qs0 ∧ QS.cluster_among (get_clusters system_user) a) ∧
    (∀ a, ¬ QS.cluster_among (get_clusters system_user) a → a ∉ qs).
Proof.
  intros Hv Hu H0.
  destruct (get_queryset_one_more db request "system_user_id" v
              (QS.cluster_among (get_clusters system_user)) qs0)
    as (qs & Hqs & Hin);
    [done|discriminate|by rewrite Hu|discriminate| |done|].
  { intros a. by apply (demand_without_system_user_id _ _ v). }
  exists qs. split_and!; [done|done|].
  intros a Hout Ha. by apply Hin in Ha as [_ ?].
Qed.

(** On the example fleet: the assets of group g1 in the clusters of system
    user dev. *)
Lemma system_user_filter_witness :
  ∃ qs,
    AssetViewSet.get_queryset Ex.db Ex.of_dev = Ok qs ∧
    (∀ a, a ∈ qs ↔
          a ∈ [("a1", Ex.web1); ("a2", Ex.web2)] ∧
          QS.cluster_among ["c2"; "c3"] a) ∧
    (∀ a, ¬ QS.cluster_among ["c2"; "c3"] a → a ∉ qs).
Proof.
  apply (system_user_filter Ex.db Ex.of_dev "dev" {| get_clusters := ["c2"; "c3"] |}).
  - split; [reflexivity|discriminate].
  - reflexivity.
  - reflexivity.
Defined.

(** *** One parameter at a time *)

Lemma demand_only db request a :
  Demand.all db request a ↔
  ∀ k, k ∈ AssetViewSet.params → Demand.all db (only k request) a.
Proof.
  split.
  - intros H k _. unfold_demands. destruct H as (H1 & H2 & H3 & H4 & H5).
    split_and!; demand.
  - intros H.
    destruct (H "cluster_id" ltac:(compute_done)) as (H1 & _).
    destruct (H "asset_group_id" ltac:(compute_done)) as (_ & H2 & _).
    destruct (H "admin_user_id" ltac:(compute_done)) as (_ & _ & H3 & _).
    destruct (H "system_user_id" ltac:(compute_done)) as (_ & _ & _ & H4 & _).
    destruct (H "node_id" ltac:(compute_done)) as (_ & _ & _ & _ & H5).
    unfold_demands. split_and!; demand.
Qed.

Lemma resolvable_only db request :
  resolvable db request ↔
  ∀ k, k ∈ AssetViewSet.params → resolvable db (only k request).
Proof.
  split.
  - intros H k _. unfold_demands. destruct H as (H1 & H2 & H3).
    split_and!; demand.
  - intros H.
    destruct (H "admin_user_id" ltac:(compute_done)) as (H1 & _).
    destruct (H "system_user_id" ltac:(compute_done)) as (_ & H2 & _).
    destruct (H "node_id" ltac:(compute_done)) as (_ & _ & H3).
    unfold_demands. split_and!; demand.
Qed.

(** C9. The filters compose conjunctively. Whatever the order in which the
    five parameters are considered, the blocks give the answer of
    [get_queryset]; the answer exists exactly when it exists for each
    parameter alone, and then an asset is in it exactly when it is in the
    answer to each parameter alone: the intersection. *)
Theorem filters_compose_conjunctively db request :
  (∀ ks, ks ≡ₚ AssetViewSet.params →
         AssetViewSet.in_order db request ks =
         AssetViewSet.get_queryset db request) ∧
  (is_Ok (AssetViewSet.get_queryset db request) ↔
   ∀ k, k ∈ AssetViewSet.params →
        is_Ok (AssetViewSet.get_queryset db (only k request))) ∧
  (∀ qs a,
     AssetViewSet.get_queryset db request = Ok qs →
     a ∈ qs ↔
     ∀ k, k ∈ AssetViewSet.params →
          ∃ qk, AssetViewSet.get_queryset db (only k request) = Ok qk ∧ a ∈ qk).
Proof.
  split_and!.
  - intros ks Hks. rewrite get_queryset_in_order. by apply in_order_permutation.
  - rewrite get_queryset_Ok, resolvable_only.
    by setoid_rewrite get_queryset_Ok.
  - intros qs a Hqs. rewrite (elem_of_get_queryset _ _ _ a Hqs). split.
    + intros [Hin Hd] k Hk.
      assert (is_Ok (AssetViewSet.get_queryset db (only k request))) as [qk Hqk].
      { apply get_queryset_Ok. apply (proj1 (resolvable_only db request)); [|done].
        apply get_queryset_Ok. by exists qs. }
      exists qk. split; [done|].
      apply (elem_of_get_queryset _ _ _ a Hqk). split; [done|].
      by apply (proj1 (demand_only db request a)).
    + intros H. split.
      * destruct (H "cluster_id" ltac:(compute_done)) as (qk & Hqk & Hin).
        by apply (elem_of_get_queryset _ _ _ a Hqk) in Hin as [? _].
      * apply demand_only. intros k Hk. destruct (H k Hk) as (qk & Hqk & Hin).
        by apply (elem_of_get_queryset _ _ _ a Hqk) in Hin as [_ ?].
Qed.

(** On the example fleet: the blocks run from last to first and shuffled
    give the answer of [get_queryset]. *)
Lemma filters_compose_conjunctively_witness :
  AssetViewSet.in_order Ex.db Ex.of_dev
    ["node_id"; "system_user_id"; "cluster_id"; "admin_user_id"; "asset_group_id"] =
  AssetViewSet.get_queryset Ex.db Ex.of_dev.
Proof.
  apply (proj1 (filters_compose_conjunctively Ex.db Ex.of_dev)).
  unfold AssetViewSet.params.
  apply NoDup_Permutation; [compute_done|compute_done|].
  intros k. rewrite !elem_of_cons, !elem_of_nil. tauto.
Defined.

(** ** The action endpoints and the permission checks *)

Section Handlers.
Context {W : Type} `{!Externals W}.

Lemma bind_handler {A B} (m : Handler W A) (f : A → Handler W B) s :
  (m ≫= f) s =
  match m s with
  | (Ok a, s') => f a s'
  | (Raise e, s') => (Raise e, s')
  end.
Proof. reflexivity. Qed.

Lemma check_permissions_refused perms request (s : State W) :
  Exists (λ permission, permission request = false) perms →
  check_permissions perms request s = (Raise PermissionDenied, s).
Proof.
  induction perms as [|p perms IH]; intros Hex.
  - by apply Exists_nil in Hex.
  - simpl. destruct (p request) eqn:Hp; [|done].
    apply IH. apply Exists_cons in Hex as [?|?]; [congruence|done].
Qed.

Lemma check_permissions_granted perms request (s : State W) :
  Forall (λ permission, permission request = true) perms →
  check_permissions perms request s = (Ok (), s).
Proof.
  induction 1 as [|p perms Hp _ IH]; [done|].
  simpl. by rewrite Hp.
Qed.

Lemma dispatch_refused (view : View W) request kwargs s :
  Exists (λ permission, permission request = false) (permission_classes view) →
  dispatch view request kwargs s = (Raise PermissionDenied, s).
Proof.
  intros Hex. unfold dispatch. rewrite bind_handler.
  by rewrite check_permissions_refused.
Qed.

Lemma dispatch_granted (view : View W) request kwargs s :
  Forall (λ permission, permission request = true) (permission_classes view) →
  dispatch view request kwargs s = handler view request kwargs s.
Proof.
  intros Hall. unfold dispatch. rewrite bind_handler.
  by rewrite check_permissions_granted.
Qed.

Lemma refresh_hardware_run request kwargs (s : State W) asset raw summary w :
  get_object_or_404 (Asset_objects (database (world s))) (kwargs !! "pk")
    = Ok asset →
  update_asset_hardware_info_manual asset (world s) = ((raw, summary), w) →
  AssetRefreshHardwareApi.retrieve request kwargs s =
  (Ok (Responded
         (if truthy_dict (summary !! "dark")
          then mkResponse (DList (values (default [] (summary !! "dark")))) (Some 501)
          else mkResponse (DDict [("msg", DStr "ok")]) None)),
   {| world := w;
      log := log s ++ [TaskRun UpdateAssetHardwareInfo asset; LogDebug summary] |}).
Proof.
  intros Hasset Hop. unfold AssetRefreshHardwareApi.retrieve.
  rewrite bind_handler. unfold tables at 1.
  rewrite bind_handler. unfold lift at 1. rewrite Hasset.
  rewrite bind_handler. unfold call at 1. rewrite Hop. cbn [snd].
  rewrite bind_handler. unfold logger_debug at 1. cbn [world log].
  rewrite <- app_assoc. cbn [app].
  by destruct (truthy_dict _).
Qed.

Lemma admin_user_test_run request kwargs (s : State W) asset ok msg w :
  get_object_or_404 (Asset_objects (database (world s))) (kwargs !! "pk")
    = Ok asset →
  test_asset_connectability_manual asset (world s) = ((ok, msg), w) →
  AssetAdminUserTestApi.retrieve request kwargs s =
  (Ok (Responded
         (if ok then mkResponse (DDict [("msg", DStr "pong")]) None
          else mkResponse (DDict [("error", msg)]) (Some 502))),
   {| world := w; log := log s ++ [TaskRun TestAssetConnectability asset] |}).
Proof.
  intros Hasset Hop. unfold AssetAdminUserTestApi.retrieve.
  rewrite bind_handler. unfold tables at 1.
  rewrite bind_handler. unfold lift at 1. rewrite Hasset.
  rewrite bind_handler. unfold call at 1. rewrite Hop.
  by destruct ok.
Qed.

Lemma refresh_hardware_missing request kwargs (s : State W) e :
  get_object_or_404 (Asset_objects (database (world s))) (kwargs !! "pk")
    = Raise e →
  AssetRefreshHardwareApi.retrieve request kwargs s = (Raise e, s).
Proof.
  intros Hasset. unfold AssetRefreshHardwareApi.retrieve.
  rewrite bind_handler. unfold tables at 1.
  rewrite bind_handler. unfold lift at 1. by rewrite Hasset.
Qed.

Lemma admin_user_test_missing request kwargs (s : State W) e :
  get_object_or_404 (Asset_objects (database (world s))) (kwargs !! "pk")
    = Raise e →
  AssetAdminUserTestApi.retrieve request kwargs s = (Raise e, s).
Proof.
  intros Hasset. unfold AssetAdminUserTestApi.retrieve.
  rewrite bind_handler. unfold tables at 1.
  rewrite bind_handler. unfold lift at 1. by rewrite Hasset.
Qed.

(** C4. For an asset that exists, [AssetRefreshHardwareApi.retrieve] runs
    the hardware operation once, on the world as it finds it, logs the
    summary and answers from the summary alone: the values of its dark
    entry with status 501 when that entry is not empty, and
    [{"msg": "ok"}] with status 200 otherwise. Nothing is run again and
    nothing is undone. *)
Theorem refresh_hardware_answer request kwargs (s : State W) asset raw summary w :
  get_object_or_404 (Asset_objects (database (world s))) (kwargs !! "pk")
    = Ok asset →
  update_asset_hardware_info_manual asset (world s) = ((raw, summary), w) →
  let answer := AssetRefreshHardwareApi.retrieve request kwargs s in
  answer.2 =
    {| world := w;
       log := log s ++ [TaskRun UpdateAssetHardwareInfo asset; LogDebug summary] |} ∧
  (∀ dark,
     summary !! "dark" = Some dark → dark ≠ [] →
     answer.1 =
       Ok (Responded {| resp_data := DList (values dark); status_code := 501 |})) ∧
  (summary !! "dark" = None ∨ summary !! "dark" = Some [] →
   answer.1 =
     Ok (Responded {| resp_data := DDict [("msg", DStr "ok")]; status_code := 200 |})).
Proof.
  intros Hasset Hop answer. subst answer.
  rewrite (refresh_hardware_run _ _ _ _ _ _ _ Hasset Hop). cbn [fst snd].
  split_and!; [done| |].
  - intros dark Hd Hne. rewrite Hd. by destruct dark.
  - by intros [->| ->].
Qed.

(** C5. For an asset that exists, [AssetAdminUserTestApi.retrieve] runs
    the connectivity operation once and answers [{"msg": "pong"}] with
    status 200 exactly when the operation reports success, and
    [{"error": msg}] with status 502, [msg] being the operation's message,
    exactly when it reports failure. *)
Theorem admin_user_test_answer request kwargs (s : State W) asset ok msg w :
  get_object_or_404 (Asset_objects (database (world s))) (kwargs !! "pk")
    = Ok asset →
  test_asset_connectability_manual asset (world s) = ((ok, msg), w) →
  let answer := AssetAdminUserTestApi.retrieve request kwargs s in
  answer.2 =
    {| world := w; log := log s ++ [TaskRun TestAssetConnectability asset] |} ∧
  (ok = true ↔
   answer.1 =
     Ok (Responded {| resp_data := DDict [("msg", DStr "pong")]; status_code := 200 |})) ∧
  (ok = false ↔
   answer.1 =
     Ok (Responded {| resp_data := DDict [("error", msg)]; status_code := 502 |})).
Proof.
  intros Hasset Hop answer. subst answer.
  rewrite (admin_user_test_run _ _ _ _ _ _ _ Hasset Hop). cbn [fst snd].
  destruct ok; (split_and!; [done|done|done]).
Qed.

(** C6. The permission check comes before the logic of every endpoint.
    [AssetViewSet] asks for a superuser or an app user;
    [AssetListUpdateApi], [AssetRefreshHardwareApi] and
    [AssetAdminUserTestApi] ask for a superuser; [UserAssetListView] asks
    for a valid user and nothing more. Whatever the handler, a refusal by
    a permission class ends the request with PermissionDenied in the state
    it started in: nothing was filtered, updated, refreshed or tested. A
    caller who passes the checks gets the handler. *)
Theorem permission_checked_first request kwargs (s : State W) :
  (∀ view : View W,
     Exists (λ permission, permission request = false) (permission_classes view) →
     dispatch view request kwargs s = (Raise PermissionDenied, s)) ∧
  (∀ view : View W,
     Forall (λ permission, permission request = true) (permission_classes view) →
     dispatch view request kwargs s = handler view request kwargs s) ∧
  (is_superuser (user request) = false → is_app (user request) = false →
   dispatch AssetViewSet.view request kwargs s = (Raise PermissionDenied, s)) ∧
  (is_superuser (user request) = false →
   dispatch AssetListUpdateApi.view request kwargs s = (Raise PermissionDenied, s) ∧
   dispatch AssetRefreshHardwareApi.view request kwargs s
     = (Raise PermissionDenied, s) ∧
   dispatch AssetAdminUserTestApi.view request kwargs s
     = (Raise PermissionDenied, s)) ∧
  (is_valid (user request) = false →
   dispatch UserAssetListView.view request kwargs s = (Raise PermissionDenied, s)) ∧
  (is_valid (user request) = true →
   dispatch UserAssetListView.view request kwargs s
     = UserAssetListView.list_action request kwargs s) ∧
  (is_superuser (user request) = true ∨ is_app (user request) = true →
   dispatch AssetViewSet.view request kwargs s
     = AssetViewSet.list_action request kwargs s) ∧
  (is_superuser (user request) = true →
   dispatch AssetListUpdateApi.view request kwargs s
     = AssetListUpdateApi.bulk request kwargs s ∧
   dispatch AssetRefreshHardwareApi.view request kwargs s
     = AssetRefreshHardwareApi.retrieve request kwargs s ∧
   dispatch AssetAdminUserTestApi.view request kwargs s
     = AssetAdminUserTestApi.retrieve request kwargs s).
Proof.
  split_and!.
  - intros view. apply dispatch_refused.
  - intros view. apply dispatch_granted.
  - intros Hsu Happ. apply dispatch_refused. left.
    unfold IsSuperUserOrAppUser. by rewrite Hsu, Happ.
  - intros Hsu. split_and!; apply dispatch_refused; by left.
  - intros Hv. apply dispatch_refused. by left.
  - intros Hv. rewrite dispatch_granted; [done|]. by repeat constructor.
  - intros Hok. rewrite dispatch_granted; [done|]. repeat constructor.
    unfold IsSuperUserOrAppUser. destruct Hok as [-> | ->]; [done|].
    by destruct (is_superuser _).
  - intros Hsu. split_and!; (rewrite dispatch_granted; [done|]);
      by repeat constructor.
Qed.

(** C10, amended. An identifier that names no row ends the request with
    Http404, status 404, before anything is run or changed: in
    [get_queryset] for [admin_user_id], [system_user_id] or [node_id]
    supplied with a non-empty value, in the two [retrieve] handlers for an
    asset key that names no asset. The state after the request is the
    state before it. *)
Theorem missing_record_raises_404 request kwargs (s : State W) :
  (∀ db v,
     supplied request "admin_user_id" v ∧ AdminUser_objects db !! v = None ∨
     supplied request "system_user_id" v ∧ SystemUser_objects db !! v = None ∨
     supplied request "node_id" v ∧ Node_objects db !! v = None →
     AssetViewSet.get_queryset db request = Raise Http404 ∧
     (db = database (world s) →
      AssetViewSet.list_action request kwargs s = (Raise Http404, s))) ∧
  (get_object_or_404 (Asset_objects (database (world s))) (kwargs !! "pk")
     = Raise Http404 ↔
   ∀ i, kwargs !! "pk" = Some i →
        Asset_objects (database (world s)) !! i = None) ∧
  ((∀ i, kwargs !! "pk" = Some i →
         Asset_objects (database (world s)) !! i = None) →
   AssetRefreshHardwareApi.retrieve request kwargs s = (Raise Http404, s) ∧
   AssetAdminUserTestApi.retrieve request kwargs s = (Raise Http404, s)) ∧
  exception_status Http404 = 404.
Proof.
  assert (∀ table : gmap Id Asset,
            get_object_or_404 table (kwargs !! "pk") = Raise Http404 ↔
            ∀ i, kwargs !! "pk" = Some i → table !! i = None) as Hpk.
  { intros table. unfold get_object_or_404.
    destruct (kwargs !! "pk") as [i|]; [|by split].
    destruct (table !! i) eqn:Hi.
    - split; [done|]. intros Hn. specialize (Hn i eq_refl). congruence.
    - split; [|done]. by intros _ ? [= <-]. }
  split_and!; [|apply Hpk| |done].
  - intros db v Hmiss.
    assert (AssetViewSet.get_queryset db request = Raise Http404) as H404.
    { destruct (AssetViewSet.get_queryset db request) as [qs|e] eqn:Hq.
      - assert (resolvable db request) as (Ha & Hs & Hn).
        { apply get_queryset_Ok. by exists qs. }
        destruct Hmiss as [[Hv Hnone]|[[Hv Hnone]|[Hv Hnone]]];
          [apply Ha in Hv|apply Hs in Hv|apply Hn in Hv];
          rewrite Hnone in Hv; by destruct Hv.
      - f_equal. by apply (get_queryset_raises db request). }
    split; [done|]. intros ->.
    unfold AssetViewSet.list_action. rewrite bind_handler. unfold tables at 1.
    rewrite bind_handler. unfold lift at 1. by rewrite H404.
  - intros Hmiss. apply Hpk in Hmiss.
    by rewrite (refresh_hardware_missing _ _ _ _ Hmiss),
      (admin_user_test_missing _ _ _ _ Hmiss).
Qed.

End Handlers.

(** ** The theorems at work on the example fleet *)

(** Asset a3 cannot be reached: the refresh answers 501 with the message
    of the dark host. *)
Lemma refresh_hardware_answer_witness :
  (AssetRefreshHardwareApi.retrieve Ex.admin_request {[ "pk" := "a3" ]} Ex.start).1 =
  Ok (Responded {| resp_data := DList [DStr "timed out"]; status_code := 501 |}).
Proof.
  refine (proj1 (proj2
    (refresh_hardware_answer (W := Ex.World) Ex.admin_request {[ "pk" := "a3" ]}
       Ex.start ("a3", Ex.db1) (DList [])
       {[ "contacted" := []; "dark" := [("a3", DStr "timed out")] ]}
       {| Ex.world_db := Ex.db; Ex.runs := 1 |} _ _))
    [("a3", DStr "timed out")] _ _).
  - reflexivity.
  - reflexivity.
  - reflexivity.
  - discriminate.
Defined.

(** Asset a3 cannot be reached: the test answers 502 with the message. *)
Lemma admin_user_test_answer_witness :
  (AssetAdminUserTestApi.retrieve Ex.admin_request {[ "pk" := "a3" ]} Ex.start).1 =
  Ok (Responded {| resp_data := DDict [("error", DStr "timed out")];
                   status_code := 502 |}).
Proof.
  refine (proj1 (proj2 (proj2
    (admin_user_test_answer (W := Ex.World) Ex.admin_request {[ "pk" := "a3" ]}
       Ex.start ("a3", Ex.db1) false (DStr "timed out")
       {| Ex.world_db := Ex.db; Ex.runs := 1 |} _ _))) _).
  - reflexivity.
  - reflexivity.
  - reflexivity.
Defined.

(** A caller who is no superuser is turned away before the test runs. *)
Lemma permission_checked_first_witness :
  dispatch AssetAdminUserTestApi.view (Ex.request ∅) {[ "pk" := "a1" ]} Ex.start =
  (Raise PermissionDenied, Ex.start).
Proof.
  destruct (permission_checked_first (W := Ex.World)
              (Ex.request ∅) {[ "pk" := "a1" ]} Ex.start)
    as (_ & _ & _ & Hsuper & _).
  apply Hsuper. reflexivity.
Defined.

(** C10, as stated, fails on an identifier supplied empty: [?admin_user_id=]
    names no admin user, and the request is answered with every asset. *)
Lemma empty_admin_user_id_is_not_looked_up :
  query_params Ex.empty_admin_user_id !! "admin_user_id" = Some "" ∧
  AdminUser_objects Ex.db !! "" = None ∧
  AssetViewSet.get_queryset Ex.db Ex.empty_admin_user_id =
    Ok (objects_all (Asset_objects Ex.db)).
Proof. split_and!; reflexivity. Qed.

(** System user nobody and asset zz do not exist: 404, and the state is the
    one the request started in. *)
Lemma missing_record_raises_404_witness :
  AssetViewSet.get_queryset Ex.db Ex.of_nobody = Raise Http404 ∧
  AssetRefreshHardwareApi.retrieve Ex.admin_request {[ "pk" := "zz" ]} Ex.start =
    (Raise Http404, Ex.start) ∧
  AssetAdminUserTestApi.retrieve Ex.admin_request {[ "pk" := "zz" ]} Ex.start =
    (Raise Http404, Ex.start).
Proof.
  split.
  - destruct (missing_record_raises_404 (W := Ex.World)
                Ex.of_nobody ∅ Ex.start) as (Hq & _).
    apply (Hq Ex.db "nobody"). right; left.
    split; [split; [reflexivity|discriminate]|reflexivity].
  - destruct (missing_record_raises_404 (W := Ex.World)
                Ex.admin_request {[ "pk" := "zz" ]} Ex.start) as (_ & _ & Hpk & _).
    apply Hpk. intros i [= <-]. reflexivity.
Defined.

(** ** Further properties: UserAssetListView *)

Section UserAssets.
Context {W : Type} `{!Externals W}.

Lemma user_assets_run request (s : State W) :
  UserAssetListView.get_queryset request s =
  (Ok (QS.id__in (pk <$> get_user_granted_assets (world s) (user request))
         (objects_all (Asset_objects (database (world s))))), s).
Proof. reflexivity. Qed.

Lemma elem_of_user_assets (table : gmap Id Asset)
    (granted : list (Instance Asset)) a :
  a ∈ QS.id__in (pk <$> granted) (objects_all table) ↔
  table !! a.1 = Some a.2 ∧ ∃ g, g ∈ granted ∧ g.1 = a.1.
Proof.
  unfold QS.id__in, objects_all, pk.
  rewrite list_elem_of_filter, elem_of_map_to_list', list_elem_of_fmap.
  split.
  - intros [(g & Hg & Hin) Ha]. split; [done|]. by exists g.
  - intros [Ha (g & Hin & Hg)]. split; [|done]. by exists g.
Qed.


(** X2. The listing of [UserAssetListView] holds no row twice, however
    often the grants name an asset. *)
Theorem user_assets_no_duplicates request (s : State W) :
  ∃ qs,
    UserAssetListView.get_queryset request s = (Ok qs, s) ∧ NoDup qs.
Proof.
  eexists. split; [apply user_assets_run|].
  apply NoDup_filter, NoDup_map_to_list.
Qed.

(** X3. When no granted asset is a row of the table any more (nothing
    granted, or all of it deleted), the listing is empty; it is no error. *)
Theorem user_assets_none_left request (s : State W) :
  (∀ granted,
     granted ∈ get_user_granted_assets (world s) (user request) →
     Asset_objects (database (world s)) !! granted.1 = None) →
  UserAssetListView.get_queryset request s = (Ok [], s).
Proof.
  intros Hgone. rewrite user_assets_run. do 2 f_equal.
  apply elem_of_nil_inv. intros a Ha.
  apply elem_of_user_assets in Ha as [Ha (g & Hin & Hg)].
  apply Hgone in Hin. rewrite Hg in Hin. congruence.
Qed.

End UserAssets.

(** What was granted is gone from the table: nothing is listed. *)
Lemma user_assets_none_left_witness :
  UserAssetListView.get_queryset (Ex.request ∅) Ex.bare = (Ok [], Ex.bare).
Proof.
  apply (user_assets_none_left (W := Ex.World)). intros granted Hin.
  reflexivity.
Defined.

(** ** Further properties: AssetViewSet.get_queryset *)

(** *** One parameter split off *)

Lemma block_without_self db request k qs :
  AssetViewSet.block db (without k request) k qs =
  if decide (k ∈ AssetViewSet.params) then Ok qs
  else AssetViewSet.block db request k qs.
Proof.
  unfold AssetViewSet.block.
  repeat case_decide; subst; try reflexivity;
    try (exfalso; match goal with H : _ ∉ _ |- _ => apply H; compute_done end);
    unfold AssetViewSet.by_cluster_id, AssetViewSet.by_asset_group_id,
      AssetViewSet.by_admin_user_id, AssetViewSet.by_system_user_id,
      AssetViewSet.by_node_id, without; cbn [query_params];
    by rewrite lookup_delete_eq.
Qed.

Lemma block_without_other db request k k' qs :
  k' ≠ k →
  AssetViewSet.block db (without k request) k' qs =
  AssetViewSet.block db request k' qs.
Proof.
  intros Hne. unfold AssetViewSet.block.
  repeat case_decide; subst; try reflexivity;
    unfold AssetViewSet.by_cluster_id, AssetViewSet.by_asset_group_id,
      AssetViewSet.by_admin_user_id, AssetViewSet.by_system_user_id,
      AssetViewSet.by_node_id, without; cbn [query_params];
    by rewrite lookup_delete_ne.
Qed.

Lemma in_order_without db request k ks :
  k ∉ ks →
  AssetViewSet.in_order db (without k request) ks =
  AssetViewSet.in_order db request ks.
Proof.
  unfold AssetViewSet.in_order.
  generalize (Ok (objects_all (Asset_objects db)) : result QuerySet).
  induction ks as [|k' ks IH]; intros r Hk; [done|].
  apply not_elem_of_cons in Hk as [Hne Hk]. simpl.
  rewrite IH by done. f_equal.
  destruct r as [qs|e]; [|done]. rewrite !bind_Ok.
  by apply block_without_other.
Qed.

Lemma in_order_snoc db request ks k :
  AssetViewSet.in_order db request (ks ++ [k]) =
  AssetViewSet.in_order db request ks ≫= AssetViewSet.block db request k.
Proof. unfold AssetViewSet.in_order. by rewrite foldl_snoc. Qed.

Lemma bind_ret_result {A} (r : result A) : r ≫= Ok = r.
Proof. by destruct r. Qed.

Lemma move_last (k : string) (ks : list string) :
  NoDup ks → k ∈ ks → ks ≡ₚ filter (λ x, x ≠ k) ks ++ [k].
Proof.
  intros Hnd Hk. apply NoDup_Permutation; [done| |].
  - apply NoDup_app. split_and!.
    + by apply NoDup_filter.
    + intros x Hx Hx'. apply list_elem_of_filter in Hx as [Hne _].
      by apply list_elem_of_singleton in Hx'.
    + apply NoDup_singleton.
  - intros x. rewrite elem_of_app, list_elem_of_filter, list_elem_of_singleton.
    destruct (decide (x = k)) as [->|Hne]; [tauto|]. split; [auto|].
    by intros [[_ ?]|?].
Qed.

Lemma get_queryset_without_split db request k :
  k ∈ AssetViewSet.params →
  AssetViewSet.get_queryset db request =
  AssetViewSet.get_queryset db (without k request)
    ≫= AssetViewSet.block db request k.
Proof.
  intros Hk.
  assert (NoDup AssetViewSet.params) as Hnd by compute_done.
  pose proof (move_last k _ Hnd Hk) as Hperm.
  set (ks := filter (λ x, x ≠ k) AssetViewSet.params) in *.
  assert (k ∉ ks) as Hout.
  { intros Hin. by apply list_elem_of_filter in Hin as [? _]. }
  rewrite !get_queryset_in_order.
  rewrite (in_order_permutation db request _ _ Hperm).
  rewrite (in_order_permutation db (without k request) _ _ Hperm).
  rewrite !in_order_snoc, (in_order_without db request k ks Hout).
  destruct (AssetViewSet.in_order db request ks) as [qs|e]; [|done].
  rewrite !bind_Ok, block_without_self. by rewrite decide_True.
Qed.

(** X4. Any one of the five parameters can be split off: the answer of
    [get_queryset] is the answer to the request without that parameter,
    passed through the parameter's own block. This holds row for row (order
    and repetitions included) and for failures, whatever the position of the
    block in the method. *)
Theorem get_queryset_split db request k :
  k ∈ AssetViewSet.params →
  AssetViewSet.get_queryset db request =
  AssetViewSet.get_queryset db (without k request)
    ≫= AssetViewSet.block db request k.
Proof. apply get_queryset_without_split. Qed.

(** The group filter, which the method applies second, applied last. *)
Lemma get_queryset_split_witness :
  AssetViewSet.get_queryset Ex.db Ex.of_dev =
  AssetViewSet.get_queryset Ex.db (without "asset_group_id" Ex.of_dev)
    ≫= AssetViewSet.block Ex.db Ex.of_dev "asset_group_id".
Proof. apply get_queryset_split. compute_done. Defined.

(** *** Fewer parameters, more rows *)

Lemma resolvable_without db request k :
  resolvable db request → resolvable db (without k request).
Proof. unfold_demands. intros (H1 & H2 & H3). split_and!; demand. Qed.

Lemma demand_all_without db request k a :
  Demand.all db request a → Demand.all db (without k request) a.
Proof.
  unfold_demands. intros (H1 & H2 & H3 & H4 & H5). split_and!; demand.
Qed.

(** X5. A parameter only narrows the answer: when [get_queryset] answers a
    request, it also answers the request with any one parameter taken out,
    and every row of the first answer is in the second. *)
Theorem get_queryset_narrows db request k qs :
  AssetViewSet.get_queryset db request = Ok qs →
  ∃ qs0,
    AssetViewSet.get_queryset db (without k request) = Ok qs0 ∧
    ∀ a, a ∈ qs → a ∈ qs0.
Proof.
  intros Hqs.
  assert (is_Ok (AssetViewSet.get_queryset db (without k request))) as [qs0 H0].
  { apply get_queryset_Ok, resolvable_without, get_queryset_Ok. by exists qs. }
  exists qs0. split; [done|]. intros a Ha.
  apply (elem_of_get_queryset _ _ _ a Hqs) in Ha as [Hin Hd].
  apply (elem_of_get_queryset _ _ _ a H0). split; [done|].
  by apply demand_all_without.
Qed.

(** The assets of group g1 in dev's clusters are among the assets of dev's
    clusters. *)
Lemma get_queryset_narrows_witness :
  ∃ qs0,
    AssetViewSet.get_queryset Ex.db (without "asset_group_id" Ex.of_dev) = Ok qs0 ∧
    ∀ a, a ∈ [("a2", Ex.web2)] → a ∈ qs0.
Proof.
  apply (get_queryset_narrows Ex.db Ex.of_dev "asset_group_id"). reflexivity.
Defined.

(** *** What the answer depends on *)

Lemma same_value_cases r1 r2 k :
  (∀ v, supplied r1 k v ↔ supplied r2 k v) →
  (truthy (query_params r1 !! k) = false ∧
   truthy (query_params r2 !! k) = false) ∨
  (∃ v, v ≠ "" ∧ query_params r1 !! k = Some v ∧ query_params r2 !! k = Some v).
Proof.
  intros Hsame. destruct (truthy (query_params r1 !! k)) eqn:H1.
  - right. apply truthy_supplied in H1 as [v Hv].
    exists v. destruct (proj1 (Hsame v) Hv) as [H2 _]. by destruct Hv.
  - left. split; [done|]. destruct (truthy (query_params r2 !! k)) eqn:H2; [|done].
    apply truthy_supplied in H2 as [v Hv]. apply Hsame in Hv.
    by apply not_truthy_supplied with (v := v) in H1.
Qed.

Lemma block_same_values db r1 r2 k qs :
  (∀ v, supplied r1 k v ↔ supplied r2 k v) →
  AssetViewSet.block db r1 k qs = AssetViewSet.block db r2 k qs.
Proof.
  intros Hsame. unfold AssetViewSet.block.
  repeat case_decide; subst; try reflexivity;
    unfold AssetViewSet.by_cluster_id, AssetViewSet.by_asset_group_id,
      AssetViewSet.by_admin_user_id, AssetViewSet.by_system_user_id,
      AssetViewSet.by_node_id; cbn zeta;
    destruct (same_value_cases _ _ _ Hsame) as [[-> ->]|(v & _ & -> & ->)];
    reflexivity.
Qed.

(** X6. The answer of [get_queryset] depends on nothing but the non-empty
    values of its five parameters: two requests that supply the same
    non-empty values for them get the same answer, rows or failure, whoever
    the callers are, whatever else their query strings hold, and whether an
    unused parameter is absent or empty. *)
Theorem get_queryset_same_values db r1 r2 :
  (∀ k v, k ∈ AssetViewSet.params → supplied r1 k v ↔ supplied r2 k v) →
  AssetViewSet.get_queryset db r1 = AssetViewSet.get_queryset db r2.
Proof.
  intros Hsame. rewrite !get_queryset_in_order. unfold AssetViewSet.in_order.
  generalize (Ok (objects_all (Asset_objects db)) : result QuerySet).
  revert Hsame. generalize AssetViewSet.params.
  intros ks Hsame. induction ks as [|k ks IH]; intros r; [done|].
  simpl. rewrite IH.
  - f_equal. destruct r as [qs|e]; [|done]. rewrite !bind_Ok.
    apply block_same_values. intros v. apply Hsame. left.
  - intros k' v Hk'. apply Hsame. by right.
Qed.

(** A superuser's request with an empty [node_id] and a page size gets the
    rows of a plain user's request for the same cluster and group. *)
Lemma get_queryset_same_values_witness :
  AssetViewSet.get_queryset Ex.db Ex.of_c1_g1 =
  AssetViewSet.get_queryset Ex.db Ex.of_c1_g1_noisy.
Proof.
  apply get_queryset_same_values. intros k v Hk.
  unfold AssetViewSet.params in Hk.
  repeat (apply elem_of_cons in Hk; destruct Hk as [->|Hk]);
    [..|by apply elem_of_nil in Hk];
    unfold supplied; cbn [query_params Ex.of_c1_g1 Ex.of_c1_g1_noisy Ex.request];
    match goal with
    | |- ?m1 !! ?k = _ ∧ _ ↔ ?m2 !! ?k = _ ∧ _ =>
        let x := eval vm_compute in (m1 !! k) in
        let y := eval vm_compute in (m2 !! k) in
        change (m1 !! k) with x; change (m2 !! k) with y
    end;
    split; intros [Heq Hne]; split; try done; congruence.
Defined.

(** *** Rows listed more than once *)

Lemma times_cons a b qs :
  times a (b :: qs) = (if decide (b = a) then 1 else 0) + times a qs.
Proof. unfold times. rewrite filter_cons. by destruct (decide (b = a)). Qed.

Lemma times_app a qs1 qs2 : times a (qs1 ++ qs2) = times a qs1 + times a qs2.
Proof. unfold times. by rewrite filter_app, length_app. Qed.

Lemma times_replicate a b n :
  times a (replicate n b) = if decide (b = a) then n else 0.
Proof.
  induction n as [|n IH]; simpl replicate.
  - by destruct (decide (b = a)).
  - rewrite times_cons, IH. by destruct (decide (b = a)).
Qed.

Lemma times_expand m a qs : times a (QS.expand m qs) = times a qs * m a.
Proof.
  induction qs as [|b qs IH]; [done|].
  rewrite expand_cons, times_app, times_replicate, times_cons, IH.
  destruct (decide (b = a)) as [->|]; lia.
Qed.

Lemma times_positive a qs : 0 < times a qs ↔ a ∈ qs.
Proof.
  unfold times. rewrite filter_nonempty. split.
  - by intros (b & Hb & ->).
  - intros Ha. by exists a.
Qed.

Lemma block_node_id_found db request v node qs :
  supplied request "node_id" v →
  Node_objects db !! v = Some node →
  AssetViewSet.block db request "node_id" qs =
  Ok (QS.nodes__key__startswith db (node_key node) qs).
Proof.
  intros Hv Hn.
  change (AssetViewSet.block db request "node_id")
    with (AssetViewSet.by_node_id db request).
  unfold AssetViewSet.by_node_id. cbn zeta.
  rewrite (supplied_truthy _ _ _ Hv). destruct Hv as [-> _].
  by rewrite get_object_or_404_Some, Hn.
Qed.

(** X8. The node filter lists an asset once for each of its nodes under the
    requested node: with [node_id] supplied and naming a node, a row is in
    the answer as many times as it is in the answer without [node_id],
    times the number of nodes it is attached to whose key starts with the
    node's key. An asset on two such nodes is listed twice. *)
Theorem node_filter_repeats db request v node qs0 :
  supplied request "node_id" v →
  Node_objects db !! v = Some node →
  AssetViewSet.get_queryset db (without "node_id" request) = Ok qs0 →
  ∃ qs,
    AssetViewSet.get_queryset db request = Ok qs ∧
    ∀ a, times a qs =
         times a qs0 *
         length (filter (λ n, String.prefix (node_key node) (node_key n) = true)
                        (QS.joined_nodes db a)).
Proof.
  intros Hv Hn H0. eexists. split.
  - rewrite (get_queryset_without_split db request "node_id") by compute_done.
    rewrite H0, bind_Ok. by apply (block_node_id_found _ _ v).
  - intros a. by rewrite nodes__key__startswith_expand, times_expand.
Qed.

(** On the example fleet asset a1 is on nodes n1 (key 0:1) and n11 (key
    0:1:1): under n1 it is listed twice. *)
Lemma node_filter_repeats_witness :
  ∃ qs,
    AssetViewSet.get_queryset Ex.db Ex.only_n1 = Ok qs ∧
    times ("a1", Ex.web1) qs = 2.
Proof.
  destruct (node_filter_repeats Ex.db Ex.only_n1 "n1" {| node_key := "0:1" |}
              (objects_all (Asset_objects Ex.db)))
    as (qs & Hqs & Htimes).
  - split; [reflexivity|discriminate].
  - reflexivity.
  - reflexivity.
  - exists qs. split; [done|]. rewrite Htimes. reflexivity.
Defined.

Lemma NoDup_expand (m : Instance Asset → nat) (qs : QuerySet) :
  NoDup qs → (∀ a, a ∈ qs → (m a ≤ 1)%nat) → NoDup (QS.expand m qs).
Proof.
  induction 1 as [|a qs Ha Hnd IH]; intros Hm; [constructor|].
  rewrite expand_cons.
  assert (NoDup (QS.expand m qs)) as Hrest.
  { apply IH. intros b Hb. apply Hm. by right. }
  assert (m a ≤ 1)%nat as Hle by (apply Hm; left).
  destruct (m a) as [|[|n]]; [done| |lia].
  simpl. constructor; [|done]. intros Hin.
  by apply elem_of_expand in Hin as [? _].
Qed.

Lemma filter_eq_NoDup (v : string) (l : list string) :
  NoDup l → (length (filter (λ g, g = v) l) ≤ 1)%nat.
Proof.
  induction 1 as [|x l Hx Hnd IH]; [simpl; lia|].
  rewrite filter_cons. destruct (decide (x = v)) as [->|]; [|done].
  assert (filter (λ g, g = v) l = []) as ->; [|simpl; lia].
  apply elem_of_nil_inv. intros g Hg.
  by apply list_elem_of_filter in Hg as [-> Hin].
Qed.

Lemma lookup_block_NoDup {A} (table : gmap Id A) (x : option string)
    (P : Instance A → Instance Asset → Prop) `{!∀ u a, Decision (P u a)}
    (qs qs' : QuerySet) :
  (if truthy x then
     u ← get_object_or_404 table x; mret (filter (P u) qs)
   else mret qs) = Ok qs' →
  NoDup qs → NoDup qs'.
Proof.
  destruct (truthy x); [|by intros [= <-]].
  destruct (get_object_or_404 table x) as [u|]; [|done].
  rewrite bind_Ok. intros [= <-] Hnd. by apply NoDup_filter.
Qed.

(** X7. Without [node_id] the answer of [get_queryset] holds no row twice,
    provided no asset has the same group twice in its groups relation: the
    cluster, admin-user and system-user filters never repeat a row, and the
    group filter repeats one only for a repeated relation row. *)
Theorem get_queryset_no_duplicates db request qs :
  query_params request !! "node_id" = None ∨
  query_params request !! "node_id" = Some "" →
  map_Forall (λ _ row, NoDup (asset_groups row)) (Asset_objects db) →
  AssetViewSet.get_queryset db request = Ok qs →
  NoDup qs.
Proof.
  intros Hnode Hgroups. apply truthy_false in Hnode.
  rewrite get_queryset_blocks.
  unfold AssetViewSet.by_cluster_id, AssetViewSet.by_asset_group_id.
  cbn zeta. rewrite !ret_Ok, !bind_Ok.
  set (q1 := if truthy (query_params request !! "cluster_id")
             then QS.cluster__id (str (query_params request !! "cluster_id"))
                    (objects_all (Asset_objects db))
             else objects_all (Asset_objects db)).
  set (q2 := if truthy (query_params request !! "asset_group_id")
             then QS.groups__id (str (query_params request !! "asset_group_id")) q1
             else q1).
  destruct (AssetViewSet.by_admin_user_id db request q2) as [q3|] eqn:H3; [|done].
  rewrite bind_Ok.
  destruct (AssetViewSet.by_system_user_id db request q3) as [q4|] eqn:H4; [|done].
  rewrite bind_Ok. unfold AssetViewSet.by_node_id. cbn zeta. rewrite Hnode.
  intros [= <-].
  assert (NoDup q1 ∧ ∀ a, a ∈ q1 → Asset_objects db !! a.1 = Some a.2) as [N1 T1].
  { subst q1. destruct (truthy (query_params request !! "cluster_id")).
    - split; [apply NoDup_filter, NoDup_map_to_list|].
      intros a Ha. apply elem_of_cluster__id in Ha as [Ha _].
      by apply elem_of_map_to_list' in Ha.
    - split; [apply NoDup_map_to_list|].
      intros a Ha. by apply elem_of_map_to_list' in Ha. }
  assert (NoDup q2) as N2.
  { subst q2. destruct (truthy (query_params request !! "asset_group_id")); [|done].
    rewrite groups__id_expand. apply NoDup_expand; [done|].
    intros a Ha. apply filter_eq_NoDup, (Hgroups a.1). by apply T1. }
  apply (lookup_block_NoDup _ _ (λ u a, QS.cluster_among (get_clusters u.2) a)
           _ _ H4).
  by apply (lookup_block_NoDup _ _
              (λ u a, QS.cluster_among (cluster_set u.2) a ∨ pk a ∈ asset_set u.2)
              _ _ H3).
Qed.

(** On the example fleet: the assets of group g1 in dev's clusters. *)
Lemma get_queryset_no_duplicates_witness :
  NoDup [("a2", Ex.web2)].
Proof.
  apply (get_queryset_no_duplicates Ex.db Ex.of_dev).
  - by left.
  - compute_done.
  - reflexivity.
Defined.

(** *** Empty answers *)

Lemma get_queryset_nothing db request :
  resolvable db request →
  (∀ a, Asset_objects db !! a.1 = Some a.2 → ¬ Demand.all db request a) →
  AssetViewSet.get_queryset db request = Ok [].
Proof.
  intros Hres Hnone.
  destruct (proj2 (get_queryset_Ok db request) Hres) as [qs Hqs].
  rewrite Hqs. f_equal. apply elem_of_nil_inv. intros a Ha.
  apply (elem_of_get_queryset _ _ _ a Hqs) in Ha as [Hin Hd].
  apply elem_of_map_to_list' in Hin. by apply (Hnone a).
Qed.

(** X9. [cluster_id] and [asset_group_id] are never looked up: a cluster id
    that no asset carries, or a group id that no asset is a member of, gives
    an empty answer, where an [admin_user_id] that names nobody gives 404.
    (The identifiers that are looked up are taken to name rows.) *)
Theorem unknown_cluster_or_group_is_empty db request :
  resolvable db request →
  (∃ v, supplied request "cluster_id" v ∧
        ∀ i row, Asset_objects db !! i = Some row → asset_cluster row ≠ Some v) ∨
  (∃ v, supplied request "asset_group_id" v ∧
        ∀ i row, Asset_objects db !! i = Some row → v ∉ asset_groups row) →
  AssetViewSet.get_queryset db request = Ok [].
Proof.
  intros Hres Hunknown. apply get_queryset_nothing; [done|].
  intros a Ha (Hc & Hg & _).
  destruct Hunknown as [(v & Hv & Hno)|(v & Hv & Hno)].
  - by apply (Hno a.1 a.2 Ha), Hc.
  - by apply (Hno a.1 a.2 Ha), Hg.
Qed.

(** No asset of the example fleet is in cluster zz. *)
Lemma unknown_cluster_or_group_is_empty_witness :
  AssetViewSet.get_queryset Ex.db Ex.of_cluster_zz = Ok [].
Proof.
  apply unknown_cluster_or_group_is_empty.
  - split_and!; intros v [Hv _]; discriminate Hv.
  - left. exists "zz". split; [split; [reflexivity|discriminate]|].
    apply (bool_decide_unpack
             (map_Forall (λ _ row, asset_cluster row ≠ Some "zz")
                         (Asset_objects Ex.db))).
    vm_compute. exact I.
Defined.

(** X10. A system user whose [get_clusters()] is empty, or an admin user
    with neither clusters nor assets of its own, gets an empty answer, not
    every asset and not an error. (The other identifiers that are looked up
    are taken to name rows.) *)
Theorem nothing_related_is_empty db request :
  resolvable db request →
  (∃ v system_user,
     supplied request "system_user_id" v ∧
     SystemUser_objects db !! v = Some system_user ∧
     get_clusters system_user = []) ∨
  (∃ v admin_user,
     supplied request "admin_user_id" v ∧
     AdminUser_objects db !! v = Some admin_user ∧
     cluster_set admin_user = [] ∧ asset_set admin_user = []) →
  AssetViewSet.get_queryset db request = Ok [].
Proof.
  intros Hres Hempty. apply get_queryset_nothing; [done|].
  intros a Ha (_ & _ & Hadmin & Hsystem & _).
  destruct Hempty as [(v & u & Hv & Hu & Hc)|(v & u & Hv & Hu & Hc & Hs)].
  - specialize (Hsystem v u Hv Hu). rewrite Hc in Hsystem.
    unfold QS.cluster_among in Hsystem.
    destruct (asset_cluster a.2); [by apply elem_of_nil in Hsystem|done].
  - specialize (Hadmin v u Hv Hu). rewrite Hc, Hs in Hadmin.
    destruct Hadmin as [Hin|Hin]; [|by apply elem_of_nil in Hin].
    unfold QS.cluster_among in Hin.
    destruct (asset_cluster a.2); [by apply elem_of_nil in Hin|done].
Qed.

(** System user idle has no clusters. *)
Lemma nothing_related_is_empty_witness :
  AssetViewSet.get_queryset Ex.db2 Ex.of_idle = Ok [].
Proof.
  apply nothing_related_is_empty.
  - split_and!; intros v [Hv Hne]; try discriminate Hv.
    injection Hv as <-. by eexists.
  - left. exists "idle", {| get_clusters := [] |}.
    split_and!; [split; [reflexivity|discriminate]|reflexivity|reflexivity].
Defined.

(** *** Nodes: assets without nodes, and the empty key *)

Lemma under_joined db k a :
  Demand.under db k a ↔
  ∃ n, n ∈ QS.joined_nodes db a ∧ String.prefix k (node_key n) = true.
Proof.
  unfold Demand.under. split.
  - intros (nid & n & ? & ? & ?). exists n. split; [|done].
    apply elem_of_joined_nodes. eauto.
  - intros (n & Hn & ?). apply elem_of_joined_nodes in Hn as (nid & ? & ?). eauto.
Qed.

(** X11. With [node_id] supplied and naming a node, an asset that is joined
    to no node row (attached to none, or only to nodes that are gone) is
    never in the answer. When the node's key is empty, which every key
    starts with, the filter keeps exactly the assets joined to at least one
    node. *)
Theorem node_filter_needs_a_node db request v node qs0 :
  supplied request "node_id" v →
  Node_objects db !! v = Some node →
  AssetViewSet.get_queryset db (without "node_id" request) = Ok qs0 →
  ∃ qs,
    AssetViewSet.get_queryset db request = Ok qs ∧
    (∀ a, QS.joined_nodes db a = [] → a ∉ qs) ∧
    (node_key node = "" →
     ∀ a, a ∈ qs ↔ a ∈ qs0 ∧ QS.joined_nodes db a ≠ []).
Proof.
  intros Hv Hn H0.
  destruct (get_queryset_one_more db request "node_id" v
              (Demand.under db (node_key node)) qs0) as (qs & Hqs & Hin);
    [done|discriminate|discriminate|by rewrite Hn| |done|].
  { intros a. by apply (demand_without_node_id _ _ v). }
  exists qs. split_and!; [done|..].
  - intros a Hnone Ha. apply Hin in Ha as [_ Hu].
    apply under_joined in Hu as (n & Hjoin & _). rewrite Hnone in Hjoin.
    by apply elem_of_nil in Hjoin.
  - intros Hkey a. rewrite Hin, under_joined, Hkey. split.
    + intros [Ha (n & Hjoin & _)]. split; [done|]. intros Hnil.
      rewrite Hnil in Hjoin. by apply elem_of_nil in Hjoin.
    + intros [Ha Hsome]. split; [done|].
      destruct (QS.joined_nodes db a) as [|n l]; [done|].
      exists n. split; [left|]. by destruct (node_key n).
Qed.

(** Under the top node, whose key is empty: every asset but the one with no
    node. *)
Lemma node_filter_needs_a_node_witness :
  ∃ qs,
    AssetViewSet.get_queryset Ex.db2 Ex.under_top = Ok qs ∧
    (∀ a, QS.joined_nodes Ex.db2 a = [] → a ∉ qs) ∧
    ("" = "" →
     ∀ a, a ∈ qs ↔
          a ∈ objects_all (Asset_objects Ex.db2) ∧ QS.joined_nodes Ex.db2 a ≠ []).
Proof.
  apply (node_filter_needs_a_node Ex.db2 Ex.under_top "top" {| node_key := "" |}).
  - split; [reflexivity|discriminate].
  - reflexivity.
  - reflexivity.
Defined.
